(** * ResistenceSupportZone: zones, confirmations, signals and ingestion

    A shallow embedding of the zone engine of the repository
    (models.py, confirmations.py, signals.py and the detector, analyzer and
    manager kept under save_old_files/), with the properties its
    specification states about it.

    Conventions of the embedding.
    - A Python [float] is read as a real number ([R]): arithmetic is exact,
      [np.exp], [np.mean] and [np.std] are the real exponential, mean and
      population standard deviation.  The IEEE special values only occur
      where candles enter the system, and are explicit there ([pyfloat]).
    - A Python [int] is a [Z]; [len] is a [nat].
    - A [datetime] is a real number of seconds; [datetime.now()] is the
      argument [now] of the function that reads the clock.
    - A call that can raise returns a [PyResult]; a call that logs returns
      the records it emitted. *)

From Stdlib Require Import Reals Lra Lia ZArith Ascii String List Bool.
Import ListNotations.
Open Scope R_scope.

(** ** Python preliminaries *)

Module Py.

Inductive PyExn : Type :=
| ZeroDivisionError
| ValueError
| IndexError
| KeyError (key : string)
| QueueFull.

Inductive PyResult (A : Type) : Type :=
| Ok (a : A)
| Raise (e : PyExn).
Arguments Ok {A} a.
Arguments Raise {A} e.

Definition bind {A B} (r : PyResult A) (k : A -> PyResult B) : PyResult B :=
  match r with
  | Ok a => k a
  | Raise e => Raise e
  end.

(** [try: body except E: handler] where [catches e] says whether the
    clause matches the exception. *)
Definition try_except {A} (body : PyResult A) (catches : PyExn -> bool)
           (handler : PyExn -> PyResult A) : PyResult A :=
  match body with
  | Ok a => Ok a
  | Raise e => if catches e then handler e else Raise e
  end.

Definition returns {A} (r : PyResult A) : Prop := exists a, r = Ok a.

(** Comparisons of floats as booleans. *)
Definition Rleb (x y : R) : bool := if Rle_dec x y then true else false.
Definition Rltb (x y : R) : bool := if Rlt_dec x y then true else false.
Definition Reqb (x y : R) : bool := if Req_EM_T x y then true else false.

(** Truth value of an [Optional[float]]: [None] and [0.0] are false. *)
Definition truthy (o : option R) : bool :=
  match o with
  | None => false
  | Some x => negb (Reqb x 0)
  end.

(** [l[-n:]] for [n > 0], and [l[:n]]. *)
Definition lastn {A} (n : nat) (l : list A) : list A :=
  skipn (length l - n) l.
Definition slice {A} (lo hi : nat) (l : list A) : list A :=
  firstn (hi - lo) (skipn lo l).

Definition Rsum (l : list R) : R := fold_right Rplus 0 l.

(** [x / y] on Python floats. *)
Definition float_div (x y : R) : PyResult R :=
  if Reqb y 0 then Raise ZeroDivisionError else Ok (x / y).

(** [min(...)] and [max(...)] over a sequence; empty sequences raise. *)
Definition py_min (l : list R) : PyResult R :=
  match l with
  | [] => Raise ValueError
  | x :: xs => Ok (fold_left Rmin xs x)
  end.
Definition py_max (l : list R) : PyResult R :=
  match l with
  | [] => Raise ValueError
  | x :: xs => Ok (fold_left Rmax xs x)
  end.

(** [np.mean] and [np.std] (population standard deviation). *)
Definition np_mean (l : list R) : R := Rsum l / INR (length l).
Definition np_std (l : list R) : R :=
  let m := np_mean l in
  sqrt (np_mean (map (fun x => (x - m) * (x - m)) l)).

End Py.
Import Py.

Declare Scope py_scope.
Notation "x <- c ;; k" := (bind c (fun x => k))
  (at level 61, c at next level, right associativity) : py_scope.
Open Scope py_scope.

(** ** models.py *)

Inductive ZoneType : Type := SUPPORT | RESISTANCE.

Definition ZoneType_eqb (a b : ZoneType) : bool :=
  match a, b with
  | SUPPORT, SUPPORT | RESISTANCE, RESISTANCE => true
  | _, _ => false
  end.

Definition ZoneType_value (t : ZoneType) : string :=
  match t with
  | SUPPORT => "support"
  | RESISTANCE => "resistance"
  end.

Record StatisticalMetrics : Type := mkStats {
  p_value : R;
  confidence : R;
  z_score : R;
  touches_std : R;
  persistence_score : R;
  created : R;
  last_touch : R
}.

(** [StatisticalMetrics()] built at clock reading [now]. *)
Definition StatisticalMetrics_default (now : R) : StatisticalMetrics :=
  mkStats 1 0 0 0 0 now now.

Definition decay_factor (now : R) (half_life_hours : R)
           (s : StatisticalMetrics) : R :=
  let age_hours := (now - created s) / 3600 in
  exp (- ln 2 * age_hours / half_life_hours).

Definition recency_factor (now : R) (s : StatisticalMetrics) : R :=
  let hours_since_touch := (now - last_touch s) / 3600 in
  Rmax 0 (1 - hours_since_touch / 24).

Record Zone : Type := mkZone {
  zone_type : ZoneType;
  center : R;
  zone_low : R;
  zone_high : R;
  touches : Z;
  touch_prices : list R;
  touch_times : list R;
  stats : StatisticalMetrics;
  confirmed_tf : list (string * bool);
  orderbook_strength : option R;
  volume_strength : option R;
  trade_flow_strength : option R;
  successful_rejections : Z;
  failed_breakouts : Z
}.

(** [sum(d.values())] and [any(d.values())] of a [Dict[str, bool]]. *)
Definition sum_values (d : list (string * bool)) : Z :=
  Z.of_nat (length (filter snd d)).
Definition any_values (d : list (string * bool)) : bool :=
  existsb snd d.

Definition quality_score (now : R) (self : Zone) : R :=
  let score := 0 in
  let score := score + IZR (Z.min (touches self * 8) 20) in
  let score :=
    score + (if Rltb 0.95 (confidence (stats self)) then 20
             else if Rltb 0.9 (confidence (stats self)) then 10 else 0) in
  let tf_multiplier := IZR (sum_values (confirmed_tf self)) / 3 in
  let score := score + tf_multiplier * 15 in
  let score :=
    if truthy (orderbook_strength self)
    then score + Rmin (match orderbook_strength self with
                       | Some s => s * 10 | None => 0 end) 10
    else score in
  let score :=
    if truthy (volume_strength self)
    then score + Rmin (match volume_strength self with
                       | Some s => s * 10 | None => 0 end) 10
    else score in
  let score := score + recency_factor now (stats self) * 5 in
  let score := score + decay_factor now 12 (stats self) * 5 in
  let score :=
    if (0 <? touches self)%Z
    then
      let win_rate := IZR (successful_rejections self) / IZR (touches self) in
      score + win_rate * 10
    else score in
  Rmin 100 score.

Definition set_last_touch (time : R) (s : StatisticalMetrics) :=
  mkStats (p_value s) (confidence s) (z_score s) (touches_std s)
          (persistence_score s) (created s) time.
Definition set_touches_std (v : R) (s : StatisticalMetrics) :=
  mkStats (p_value s) (confidence s) (z_score s) v
          (persistence_score s) (created s) (last_touch s).
Definition set_z_score (v : R) (s : StatisticalMetrics) :=
  mkStats (p_value s) (confidence s) v (touches_std s)
          (persistence_score s) (created s) (last_touch s).
Definition set_p_value (p c : R) (s : StatisticalMetrics) :=
  mkStats p c (z_score s) (touches_std s)
          (persistence_score s) (created s) (last_touch s).

Definition set_stats (s : StatisticalMetrics) (z : Zone) : Zone :=
  mkZone (zone_type z) (center z) (zone_low z) (zone_high z) (touches z)
         (touch_prices z) (touch_times z) s (confirmed_tf z)
         (orderbook_strength z) (volume_strength z) (trade_flow_strength z)
         (successful_rejections z) (failed_breakouts z).
Definition set_touches (t : Z) (z : Zone) : Zone :=
  mkZone (zone_type z) (center z) (zone_low z) (zone_high z) t
         (touch_prices z) (touch_times z) (stats z) (confirmed_tf z)
         (orderbook_strength z) (volume_strength z) (trade_flow_strength z)
         (successful_rejections z) (failed_breakouts z).
Definition set_orderbook_strength (v : option R) (z : Zone) : Zone :=
  mkZone (zone_type z) (center z) (zone_low z) (zone_high z) (touches z)
         (touch_prices z) (touch_times z) (stats z) (confirmed_tf z)
         v (volume_strength z) (trade_flow_strength z)
         (successful_rejections z) (failed_breakouts z).
Definition set_volume_strength (v : option R) (z : Zone) : Zone :=
  mkZone (zone_type z) (center z) (zone_low z) (zone_high z) (touches z)
         (touch_prices z) (touch_times z) (stats z) (confirmed_tf z)
         (orderbook_strength z) v (trade_flow_strength z)
         (successful_rejections z) (failed_breakouts z).

Definition update_touch (self : Zone) (price time : R) : Zone :=
  let prices := touch_prices self ++ [price] in
  let times := touch_times self ++ [time] in
  let st := set_last_touch time (stats self) in
  let st :=
    if (3 <=? length prices)%nat then
      let prices_array := lastn 20 prices in
      let st := set_touches_std (np_std prices_array) st in
      if (5 <? length prices)%nat then
        set_z_score
          (Rabs ((price - np_mean prices_array)
                 / Rmax (np_std prices_array) 0.001)) st
      else st
    else st in
  mkZone (zone_type self) (center self) (zone_low self) (zone_high self)
         (touches self + 1) prices times st (confirmed_tf self)
         (orderbook_strength self) (volume_strength self)
         (trade_flow_strength self)
         (successful_rejections self) (failed_breakouts self).

(** *** Candles and the market state *)

(** A float as the feed can deliver it ([float(k["open"])] accepts the
    strings [inf] and [nan]). *)
Inductive pyfloat : Type :=
| Finite (x : R)
| PosInf
| NegInf
| NaN.

(** The candle dictionary handed to [add_candle]: each numeric key may be
    absent, and holds any float when present. *)
Record CandleDict : Type := mkCandleDict {
  d_open : option pyfloat;
  d_high : option pyfloat;
  d_low : option pyfloat;
  d_close : option pyfloat;
  d_volume : option pyfloat
}.

(** A candle of the rolling window: the numeric keys hold finite floats;
    [timestamp] is the key [add_candle] writes. *)
Record Candle : Type := mkCandle {
  open : R;
  high : R;
  low : R;
  close : R;
  volume : R;
  timestamp : option R
}.

Definition finite_value (o : option pyfloat) : option R :=
  match o with
  | Some (Finite x) => Some x
  | _ => None
  end.

(** The value a numeric key holds; only read on validated candles, whose
    numeric keys are all present and finite. *)
Definition num (o : option pyfloat) : R :=
  match finite_value o with
  | Some x => x
  | None => 0
  end.

(** [candle['timestamp'] = now], the dictionary being then the window's
    candle. *)
Definition stamp (now : R) (candle : CandleDict) : Candle :=
  mkCandle (num (d_open candle)) (num (d_high candle)) (num (d_low candle))
           (num (d_close candle)) (num (d_volume candle)) (Some now).

(** Modelled from the spec: numeric finiteness, the five numeric keys
    being present and holding finite floats. *)
Definition all_finite (candle : CandleDict) : bool :=
  match finite_value (d_open candle), finite_value (d_high candle),
        finite_value (d_low candle), finite_value (d_close candle),
        finite_value (d_volume candle) with
  | Some _, Some _, Some _, Some _, Some _ => true
  | _, _, _, _, _ => false
  end.

(** Modelled from the spec: OHLC sanity, the low being the least and the
    high the greatest of the four prices. *)
Definition ohlc_consistent (candle : CandleDict) : bool :=
  Rleb (num (d_low candle)) (Rmin (num (d_open candle)) (num (d_close candle)))
  && Rleb (Rmax (num (d_open candle)) (num (d_close candle)))
          (num (d_high candle)).

(** Modelled from the spec: [MarketState._validate_candle], which
    [add_candle] calls and models.py does not define.  The specification
    has it validate numeric finiteness and OHLC sanity, and never raise. *)
Definition _validate_candle (candle : CandleDict) : bool :=
  all_finite candle && ohlc_consistent candle.

Record OrderBook : Type := mkOrderBook {
  bids : option (list (R * R));
  asks : option (list (R * R))
}.

(** The empty dictionary [{}]. *)
Definition OrderBook_empty : OrderBook := mkOrderBook None None.

Record Trade : Type := mkTrade {
  trade_price : R;
  trade_qty : R;
  trade_side : string;
  trade_timestamp : R
}.

Record MarketState : Type := mkMarketState {
  max_candles : nat;
  candles : list Candle;
  orderbook : OrderBook;
  recent_trades : list Trade;
  active_zones : list Zone
}.

(** [MarketState(max_candles)]. *)
Definition MarketState_init (max_candles : nat) : MarketState :=
  mkMarketState max_candles [] OrderBook_empty [] [].

(** [deque(maxlen=n).append(x)]: the oldest element leaves a full deque. *)
Definition deque_append {A} (maxlen : nat) (q : list A) (x : A) : list A :=
  lastn maxlen (q ++ [x]).

Definition set_candles (cs : list Candle) (ms : MarketState) : MarketState :=
  mkMarketState (max_candles ms) cs (orderbook ms) (recent_trades ms)
                (active_zones ms).
Definition set_active_zones (zs : list Zone) (ms : MarketState) : MarketState :=
  mkMarketState (max_candles ms) (candles ms) (orderbook ms)
                (recent_trades ms) zs.
Definition set_orderbook (ob : OrderBook) (ms : MarketState) : MarketState :=
  mkMarketState (max_candles ms) (candles ms) ob (recent_trades ms)
                (active_zones ms).

Inductive LogLevel : Type := DEBUG | INFO | WARNING | ERROR.

(** The records the modelled code hands to its loggers. *)
Inductive LogRecord : Type :=
| InvalidCandle (timeframe : string) (candle : CandleDict)
| QueueFullDropped (dropped : Z)
| ProducerError (e : PyExn)
| RedisProducerError (e : PyExn).

Definition level (r : LogRecord) : LogLevel :=
  match r with
  | InvalidCandle _ _ => WARNING
  | QueueFullDropped _ => WARNING
  | ProducerError _ => ERROR
  | RedisProducerError _ => ERROR
  end.

Definition add_candle (self : MarketState) (candle : CandleDict)
           (timeframe : string) (now : R)
  : PyResult (MarketState * list LogRecord) :=
  if negb (_validate_candle candle) then
    Ok (self, [InvalidCandle timeframe candle])
  else
    Ok (set_candles
          (deque_append (max_candles self) (candles self) (stamp now candle))
          self, []).

(** Modelled from the spec: the detector and the signal generator read the
    market state's candle window under the name [candles_1m], which the
    [MarketState] of models.py declares as [candles] (one market state per
    timeframe, holding one candle window). *)
Definition candles_1m (ms : MarketState) : list Candle := candles ms.

(** ** The configuration (save_old_files/save_config.py) *)

Record Config : Type := mkConfig {
  ZONE_ATR_PERIOD : Z;
  ZONE_MIN_TOUCHES : Z;
  ZONE_TOLERANCE_PCT : R;
  ZONE_WIDTH_ATR_MULTIPLIER : R;
  MIN_CONFIDENCE : R;
  ACCOUNT_RISK_PERCENT : R
}.

Definition default_config : Config := mkConfig 14 3 0.003 0.5 0.7 0.02.

(** ** save_old_files/detectors.py *)

Fixpoint for_each {S A} (body : S -> A -> PyResult S) (l : list A) (s : S)
  : PyResult S :=
  match l with
  | [] => Ok s
  | x :: rest => s' <- body s x ;; for_each body rest s'
  end.

Section ZoneDetector.

Variable config : Config.

(** [scipy.stats.ttest_1samp(sample, popmean)]: the t statistic and the
    p-value. *)
Variable ttest_1samp : list R -> R -> R * R.

Definition min_touches : Z := ZONE_MIN_TOUCHES config.

Definition new_zone (now : R) (ztype : ZoneType) (price timestamp : R)
  : Zone :=
  mkZone ztype price
         (price * (1 - ZONE_WIDTH_ATR_MULTIPLIER config * 0.01))
         (price * (1 + ZONE_WIDTH_ATR_MULTIPLIER config * 0.01))
         1 [price] [timestamp] (StatisticalMetrics_default now)
         [] None None None 0 0.

Fixpoint _add_or_update_zone (now : R) (zones : list Zone) (ztype : ZoneType)
         (price tolerance timestamp : R) : PyResult (list Zone) :=
  match zones with
  | [] => Ok [new_zone now ztype price timestamp]
  | zone :: rest =>
      matched <-
        (if ZoneType_eqb (zone_type zone) ztype then
           q <- float_div (Rabs (center zone - price)) price ;;
           Ok (Rleb q tolerance)
         else Ok false) ;;
      if (matched : bool) then Ok (update_touch zone price timestamp :: rest)
      else
        rest' <- _add_or_update_zone now rest ztype price tolerance
                                     timestamp ;;
        Ok (zone :: rest')
  end.

(** [candles[i].get("timestamp", datetime.now())]. *)
Definition candle_time (now : R) (c : Candle) : R :=
  match timestamp c with
  | Some t => t
  | None => now
  end.

(** The body of the pivot scan for index [i]. *)
Definition scan_index (now : R) (candles : list Candle) (zones : list Zone)
           (i : nat) : PyResult (list Zone) :=
  let window := slice (i - 3) (i + 4) candles in
  match nth_error candles i with
  | None => Raise IndexError
  | Some ci =>
      let current_low := low ci in
      let current_high := high ci in
      lowest <- py_min (map low window) ;;
      zones <-
        (if Reqb current_low lowest then
           _add_or_update_zone now zones SUPPORT current_low
                               (ZONE_TOLERANCE_PCT config)
                               (candle_time now ci)
         else Ok zones) ;;
      highest <- py_max (map high window) ;;
      if Reqb current_high highest then
        _add_or_update_zone now zones RESISTANCE current_high
                            (ZONE_TOLERANCE_PCT config)
                            (candle_time now ci)
      else Ok zones
  end.

Definition validate_zone (popmean : R) (zone : Zone) : Zone :=
  if (3 <=? length (touch_prices zone))%nat then
    let p := snd (ttest_1samp (touch_prices zone) popmean) in
    set_stats (set_p_value p (1 - p) (stats zone)) zone
  else zone.

Definition _statistical_validation (zones : list Zone)
           (candles : list Candle) : list Zone :=
  match zones with
  | [] => zones
  | _ :: _ =>
      if (length candles <? 20)%nat then zones
      else
        let all_prices := map close (lastn 100 candles) in
        filter (fun zone => Rltb (p_value (stats zone)) 0.1)
               (map (validate_zone (np_mean all_prices)) zones)
  end.

Definition detect_zones (now : R) (market_state : MarketState)
  : PyResult (list Zone) :=
  let candles := candles_1m market_state in
  if (length candles <? 7)%nat then Ok []
  else
    zones <- for_each (scan_index now candles)
                      (seq 3 (length candles - 6)) [] ;;
    let zones := filter (fun z => (min_touches <=? touches z)%Z) zones in
    let zones := _statistical_validation zones candles in
    Ok zones.

End ZoneDetector.

(** ** confirmations.py *)

Definition in_zone (zone : Zone) (price : R) : bool :=
  Rleb (zone_low zone) price && Rleb price (zone_high zone).

(** The strength [confirm_with_orderbook] computes from the two sides of
    the book (already cut to their first ten levels). *)
Definition orderbook_strength_of (zone : Zone) (bids asks : list (R * R)) : R :=
  let total_volume :=
    Rsum (map snd (filter (fun pv => in_zone zone (fst pv)) (bids ++ asks))) in
  let avg_volume :=
    if (10 <=? length (bids ++ asks))%nat
    then Rsum (map snd (firstn 5 bids ++ firstn 5 asks)) / 10
    else 1 in
  Rmin (total_volume / Rmax avg_volume 1) 3 / 3.

(** Returns the strength and the zone as the call leaves it. *)
Definition confirm_with_orderbook (zone : Zone) (orderbook : OrderBook)
  : R * Zone :=
  match bids orderbook, asks orderbook with
  | Some b, Some a =>
      let bids := firstn 10 b in
      let asks := firstn 10 a in
      let strength := orderbook_strength_of zone bids asks in
      if Rltb 0.3 strength
      then (strength, set_orderbook_strength (Some strength) zone)
      else (strength, zone)
  | _, _ => (0, zone)
  end.

Definition touches_zone (zone : Zone) (candle : Candle) : bool :=
  in_zone zone (low candle) || in_zone zone (high candle).

Definition volume_strength_of (zone : Zone) (recent_candles : list Candle)
           (touch_volumes : list R) : R :=
  let avg_volume := np_mean (map volume (lastn 20 recent_candles)) in
  let volume_ratio := np_mean touch_volumes / Rmax avg_volume 1 in
  Rmin volume_ratio 2 / 2.

Definition confirm_with_volume (zone : Zone) (recent_candles : list Candle)
  : R * Zone :=
  if (length recent_candles <? 10)%nat then (0, zone)
  else
    let touch_volumes :=
      map volume (filter (touches_zone zone) (lastn 50 recent_candles)) in
    match touch_volumes with
    | [] => (0, zone)
    | _ :: _ =>
        let strength := volume_strength_of zone recent_candles touch_volumes in
        if Rltb 0.3 strength
        then (strength, set_volume_strength (Some strength) zone)
        else (strength, zone)
    end.

(** ** The confirmation pass of the two analyzers *)

Definition orderbook_nonempty (ob : OrderBook) : bool :=
  match bids ob, asks ob with
  | None, None => false
  | _, _ => true
  end.

(** save_old_files/analyzer.py, [_run_analysis]: the order-book and volume
    confirmations of one zone; the returned strengths are discarded. *)
Definition run_analysis_confirm (zone : Zone) (market_state : MarketState)
  : Zone :=
  let zone :=
    if orderbook_nonempty (orderbook market_state)
    then snd (confirm_with_orderbook zone (orderbook market_state))
    else zone in
  match candles_1m market_state with
  | [] => zone
  | _ :: _ =>
      snd (confirm_with_volume zone (lastn 100 (candles_1m market_state)))
  end.

(** save_old_files/symbol_analyzer.py, [_analyze_timeframe]: the additional
    confirmations of one zone; each returned strength is assigned to the
    zone's field. *)
Definition analyze_timeframe_confirm (zone : Zone) (market_state : MarketState)
  : Zone :=
  let zone :=
    if orderbook_nonempty (orderbook market_state)
    then
      let '(strength, zone) :=
        confirm_with_orderbook zone (orderbook market_state) in
      set_orderbook_strength (Some strength) zone
    else zone in
  if (10 <? length (candles market_state))%nat
  then
    let '(strength, zone) :=
      confirm_with_volume zone (lastn 100 (candles market_state)) in
    set_volume_strength (Some strength) zone
  else zone.

(** ** signals.py *)

Record TradingSignal : Type := mkTradingSignal {
  zone : Zone;
  signal_type : string;
  signal_confidence : R;
  signal_timestamp : R
}.

Definition calculate_position_size (now : R) (self : TradingSignal)
           (account_risk : R) : R :=
  let base_size := account_risk in
  let confidence_multiplier := signal_confidence self * 2 in
  let quality_multiplier := quality_score now (zone self) / 100 in
  let tf_multiplier :=
    if any_values (confirmed_tf (zone self)) then 1.5 else 1 in
  let final_size :=
    base_size * confidence_multiplier * quality_multiplier * tf_multiplier in
  Rmin final_size (account_risk * 3).

Section SignalGenerator.

(** [self.min_confidence]. *)
Variable min_confidence : R.

(** The default of [TradingSignal.timestamp], read once when the class is
    defined. *)
Variable class_time : R.

Definition _calculate_bounce_confidence (now : R) (zone : Zone)
           (market_state : MarketState) : R :=
  let confidence := 0.5 in
  let confidence :=
    if truthy (volume_strength zone)
    then confidence + (match volume_strength zone with
                       | Some s => s | None => 0 end) * 0.2
    else confidence in
  let confidence :=
    if truthy (orderbook_strength zone)
    then confidence + (match orderbook_strength zone with
                       | Some s => s | None => 0 end) * 0.15
    else confidence in
  let confidence :=
    if any_values (confirmed_tf zone) then confidence + 0.15
    else confidence in
  let confidence := confidence + (quality_score now zone / 100) * 0.1 in
  Rmin confidence 1.

(** [touched and bounced] of [_check_bounce], for the zone's side. *)
Definition touched (zone : Zone) (prev_candle : Candle) : bool :=
  match zone_type zone with
  | SUPPORT =>
      Rleb (low prev_candle) (zone_high zone)
      && Rleb (zone_low zone) (low prev_candle)
  | RESISTANCE =>
      Rleb (zone_low zone) (high prev_candle)
      && Rleb (high prev_candle) (zone_high zone)
  end.
Definition bounced (zone : Zone) (prev_candle last_candle : Candle) : bool :=
  match zone_type zone with
  | SUPPORT => Rltb (close prev_candle) (close last_candle)
  | RESISTANCE => Rltb (close last_candle) (close prev_candle)
  end.

Definition _check_bounce (now : R) (zone : Zone) (price : R)
           (market_state : MarketState) : option TradingSignal :=
  let recent_candles := lastn 3 (candles_1m market_state) in
  match rev recent_candles with
  | last_candle :: prev_candle :: _ =>
      if touched zone prev_candle && bounced zone prev_candle last_candle
      then
        let confidence :=
          _calculate_bounce_confidence now zone market_state in
        if Rleb min_confidence confidence
        then Some (mkTradingSignal zone "rejection" confidence class_time)
        else None
      else None
  | _ => None
  end.

Definition generate_signals (now : R) (market_state : MarketState)
  : list TradingSignal :=
  let current_price :=
    match rev (candles_1m market_state) with
    | c :: _ => close c
    | [] => 0
    end in
  flat_map
    (fun zone =>
       if Rltb (quality_score now zone) 40 then []
       else
         match _check_bounce now zone current_price market_state with
         | Some bounce_signal => [bounce_signal]
         | None => []
         end)
    (active_zones market_state).

End SignalGenerator.

(** ** save_old_files/multi_symbol_manager.py: the ingestion queue *)

Module Manager.

(** A pub/sub message: its [type], [channel] and [data] keys. *)
Record Message : Type := mkMessage {
  type : string;
  channel : string;
  data : string
}.

(** [asyncio.Queue(maxsize)]. *)
Record Queue : Type := mkQueue {
  maxsize : Z;
  items : list Message
}.

Definition qsize (q : Queue) : Z := Z.of_nat (length (items q)).

Definition full (q : Queue) : bool :=
  if (maxsize q <=? 0)%Z then false else (maxsize q <=? qsize q)%Z.

Definition put_nowait (q : Queue) (item : Message) : PyResult Queue :=
  if full q then Raise QueueFull
  else Ok (mkQueue (maxsize q) (items q ++ [item])).

Record Stats : Type := mkStats {
  messages_processed : Z;
  messages_dropped : Z;
  avg_queue_size : R;
  start_time : R
}.

Record State : Type := mkState {
  message_queue : Queue;
  stats : Stats;
  log : list LogRecord
}.

(** The state [MultiSymbolManager()] starts in. *)
Definition init (now : R) : State :=
  mkState (mkQueue 100000 []) (mkStats 0 0 0 now) [].

Definition is_QueueFull (e : PyExn) : bool :=
  match e with
  | QueueFull => true
  | _ => false
  end.

Definition drop_message (self : State) : State :=
  let dropped := (messages_dropped (stats self) + 1)%Z in
  let st := mkStats (messages_processed (stats self)) dropped
                    (avg_queue_size (stats self))
                    (start_time (stats self)) in
  mkState (message_queue self) st
          (if (dropped mod 100 =? 0)%Z
           then log self ++ [QueueFullDropped dropped]
           else log self).

(** The body of the producer's loop for one message of the stream. *)
Definition producer_body (self : State) (message : Message)
  : PyResult State :=
  if String.eqb (type message) "message" then
    try_except
      (try_except
         (q <- put_nowait (message_queue self) message ;;
          Ok (mkState q (stats self) (log self)))
         is_QueueFull
         (fun _ => Ok (drop_message self)))
      (fun _ => true)
      (fun e => Ok (mkState (message_queue self) (stats self)
                            (log self ++ [ProducerError e])))
  else Ok self.

(** [_redis_producer] over the messages the subscription delivers: an
    exception of the loop is logged and ends it. *)
Fixpoint _redis_producer (self : State) (messages : list Message) : State :=
  match messages with
  | [] => self
  | message :: rest =>
      match producer_body self message with
      | Ok self' => _redis_producer self' rest
      | Raise e =>
          mkState (message_queue self) (stats self)
                  (log self ++ [RedisProducerError e])
      end
  end.

End Manager.

(** ** Notions used by the properties *)

Definition touches_points (z : Zone) : R := IZR (Z.min (touches z * 8) 20).

Definition confidence_points (z : Zone) : R :=
  if Rltb 0.95 (confidence (stats z)) then 20
  else if Rltb 0.9 (confidence (stats z)) then 10 else 0.

Definition timeframe_points (z : Zone) : R :=
  IZR (sum_values (confirmed_tf z)) / 3 * 15.

Definition strength_points (o : option R) : R :=
  if truthy o then Rmin (match o with Some s => s * 10 | None => 0 end) 10
  else 0.

Definition time_points (now : R) (z : Zone) : R :=
  recency_factor now (stats z) * 5 + decay_factor now 12 (stats z) * 5.

Definition win_points (z : Zone) : R :=
  if (0 <? touches z)%Z
  then IZR (successful_rejections z) / IZR (touches z) * 10
  else 0.

Definition strength_nonneg (o : option R) : Prop :=
  match o with
  | Some s => 0 <= s
  | None => True
  end.

(** The counts and stored strengths of a zone are not negative. *)
Definition nonneg_zone (z : Zone) : Prop :=
  (0 <= touches z)%Z /\ (0 <= successful_rejections z)%Z
  /\ strength_nonneg (orderbook_strength z)
  /\ strength_nonneg (volume_strength z).

(** A support zone around 100 as the detector leaves it after three
    touches, read at the clock reading 0 at which it was created. *)
Definition zone_100 : Zone :=
  mkZone SUPPORT 100 99.5 100.5 3 [100; 100; 100] [1; 2; 3]
         (StatisticalMetrics_default 0) [] None None None 0 0.

Definition set_successful_rejections (n : Z) (z : Zone) : Zone :=
  mkZone (zone_type z) (center z) (zone_low z) (zone_high z) (touches z)
         (touch_prices z) (touch_times z) (stats z) (confirmed_tf z)
         (orderbook_strength z) (volume_strength z) (trade_flow_strength z)
         n (failed_breakouts z).

(** A zone the confirmations have filled in, of quality 80 at the clock
    reading 0: three touches, all of them rejections, a confidence of 0.96
    and both strengths at 1, no timeframe confirmed. *)
Definition zone_80 : Zone :=
  mkZone SUPPORT 100 99.5 100.5 3 [100; 100; 100] [0; 0; 0]
         (mkStats 0.04 0.96 0 0 0 0 0) [] (Some 1) (Some 1) None 3 0.

(** A rejection signal on [zone_80] with confidence 0.9. *)
Definition signal_80 : TradingSignal := mkTradingSignal zone_80 "rejection" 0.9 0.

(** A market state whose last two candles touch [zone_100] from above and
    bounce: the earlier low lies in the band, the later close is higher. *)
Definition bounce_state : MarketState :=
  mkMarketState 500
    [mkCandle 101 102 100 101 10 (Some 1);
     mkCandle 101 103 100.5 102 10 (Some 2)]
    OrderBook_empty [] [zone_100].

(** A numeric key holding an infinity or a NaN. *)
Definition non_finite (o : option pyfloat) : Prop :=
  o = Some PosInf \/ o = Some NegInf \/ o = Some NaN.

Definition has_non_finite_field (candle : CandleDict) : Prop :=
  non_finite (d_open candle) \/ non_finite (d_high candle)
  \/ non_finite (d_low candle) \/ non_finite (d_close candle)
  \/ non_finite (d_volume candle).

(** The four prices are finite and the low is above, or the high below,
    one of them. *)
Definition ohlc_inconsistent (candle : CandleDict) : Prop :=
  exists o h l c : R,
    d_open candle = Some (Finite o) /\ d_high candle = Some (Finite h)
    /\ d_low candle = Some (Finite l) /\ d_close candle = Some (Finite c)
    /\ (h < l \/ h < o \/ h < c \/ o < l \/ c < l).

(** The two outcomes of [add_candle]. *)
Definition appended (self : MarketState) (candle : CandleDict) (now : R)
  : MarketState :=
  set_candles
    (deque_append (max_candles self) (candles self) (stamp now candle)) self.

Definition candle_ok : CandleDict :=
  mkCandleDict (Some (Finite 100)) (Some (Finite 102)) (Some (Finite 99))
               (Some (Finite 101)) (Some (Finite 10)).
Definition candle_nan : CandleDict :=
  mkCandleDict (Some (Finite 100)) (Some NaN) (Some (Finite 99))
               (Some (Finite 101)) (Some (Finite 10)).
Definition candle_high_below_low : CandleDict :=
  mkCandleDict (Some (Finite 100)) (Some (Finite 98)) (Some (Finite 99))
               (Some (Finite 101)) (Some (Finite 10)).

(** A full ingestion queue, and a message for it. *)
Definition kline_message : Manager.Message :=
  Manager.mkMessage "message" "kline.1.BTCUSDT" "{}".
Definition full_state : Manager.State :=
  Manager.mkState (Manager.mkQueue 100000 (repeat kline_message (Z.to_nat 100000)))
                  (Manager.mkStats 0 99 0 0) [].

(** Feeding two pivot prices of one type, then a third, into a registry. *)
Definition feed_two (config : Config) (now : R) (ztype : ZoneType)
           (p1 p2 tolerance t1 t2 : R) : PyResult (list Zone) :=
  zones <- _add_or_update_zone config now [] ztype p1 tolerance t1 ;;
  _add_or_update_zone config now zones ztype p2 tolerance t2.

Definition feed_three (config : Config) (now : R) (ztype : ZoneType)
           (p1 p2 p3 tolerance t1 t2 t3 : R) : PyResult (list Zone) :=
  zones <- feed_two config now ztype p1 p2 tolerance t1 t2 ;;
  _add_or_update_zone config now zones ztype p3 tolerance t3.

(** The invariant of a zone: the band contains the center, and the count
    of touches is the length of both touch lists. *)
Definition zone_invariant (z : Zone) : Prop :=
  zone_low z <= center z <= zone_high z
  /\ touches z = Z.of_nat (length (touch_prices z))
  /\ length (touch_prices z) = length (touch_times z).

(** No candle of the window has a negative low or high. *)
Definition nonneg_prices (cs : list Candle) : Prop :=
  Forall (fun c => 0 <= low c /\ 0 <= high c) cs.

(** The price a candle offers as a pivot of each type. *)
Definition pivot_of (c : Candle) (ztype : ZoneType) : R :=
  match ztype with
  | SUPPORT => low c
  | RESISTANCE => high c
  end.

(** *** Two passes over one market state *)

(** The market state after [add_candle] has accepted the candle. *)
Definition receive (ms : MarketState) (arrival : CandleDict * R)
  : MarketState :=
  appended ms (fst arrival) (snd arrival).

Definition is_prefix {A} (l l' : list A) : Prop := exists rest, l' = l ++ rest.

(** The zone [z'] of the later pass continues the zone [z] of the earlier
    one: same type and center, and the earlier touches, touch prices and
    touch times are carried into it. *)
Definition carries_forward (z z' : Zone) : Prop :=
  zone_type z' = zone_type z /\ center z' = center z
  /\ (touches z <= touches z')%Z
  /\ is_prefix (touch_prices z) (touch_prices z')
  /\ is_prefix (touch_times z) (touch_times z').

(** The candle at index [i] is a pivot of the type [ztype] in the window. *)
Definition pivot_at (cs : list Candle) (i : nat) (ztype : ZoneType) (p : R)
  : Prop :=
  (3 <= i < length cs - 3)%nat
  /\ exists ci : Candle,
      nth_error cs i = Some ci /\ p = pivot_of ci ztype
      /\ match ztype with
         | SUPPORT => py_min (map low (slice (i - 3) (i + 4) cs)) = Ok p
         | RESISTANCE => py_max (map high (slice (i - 3) (i + 4) cs)) = Ok p
         end.

(** What C2 asks of two successive passes, the second one after the
    candles [arrivals] have entered the market state. *)
Definition history_carried_forward (config : Config)
           (ttest_1samp : list R -> R -> R * R) (now1 now2 : R)
           (market_state : MarketState) (arrivals : list (CandleDict * R))
  : Prop :=
  forall (r1 r2 : list Zone) (z : Zone) (i : nat) (p : R),
    detect_zones config ttest_1samp now1 market_state = Ok r1 ->
    detect_zones config ttest_1samp now2
                 (fold_left receive arrivals (set_active_zones r1 market_state))
    = Ok r2 ->
    In z r1 ->
    pivot_at (candles (fold_left receive arrivals
                                 (set_active_zones r1 market_state)))
             i (zone_type z) p ->
    Rabs (center z - p) / p <= ZONE_TOLERANCE_PCT config ->
    exists z' : Zone, In z' r2 /\ carries_forward z z'.

(** A quiet candle (low 100, high 101) and a wide one (low 95, high 105). *)
Definition flat_candle : CandleDict :=
  mkCandleDict (Some (Finite 100)) (Some (Finite 101)) (Some (Finite 100))
               (Some (Finite 100)) (Some (Finite 10)).
Definition wide_candle : CandleDict :=
  mkCandleDict (Some (Finite 100)) (Some (Finite 105)) (Some (Finite 95))
               (Some (Finite 100)) (Some (Finite 10)).

(** A market state of capacity 9 after nine quiet candles, received at the
    clock readings 1 to 9. *)
Definition quiet_state : MarketState :=
  fold_left receive
            [(flat_candle, 1); (flat_candle, 2); (flat_candle, 3);
             (flat_candle, 4); (flat_candle, 5); (flat_candle, 6);
             (flat_candle, 7); (flat_candle, 8); (flat_candle, 9)]
            (MarketState_init 9).

(** The three candles that arrive before the later pass. *)
Definition later_arrivals : list (CandleDict * R) :=
  [(flat_candle, 10); (wide_candle, 11); (wide_candle, 12)].

Definition flat (t : R) : Candle := mkCandle 100 101 100 100 10 (Some t).
Definition wide (t : R) : Candle := mkCandle 100 105 95 100 10 (Some t).

(** The zones of the earlier pass: three touches each. *)
Definition quiet_support : Zone :=
  update_touch
    (update_touch (new_zone default_config 0 SUPPORT 100 4) 100 5) 100 6.
Definition quiet_resistance : Zone :=
  update_touch
    (update_touch (new_zone default_config 0 RESISTANCE 101 4) 101 5) 101 6.

(** Any p-value function; the windows below are too short for it to be
    called. *)
Definition ttest_stub (sample : list R) (popmean : R) : R * R := (0, 1).

(** The touches of a zone come from the candles of the window: each touch
    price is the low or the high of one of them, each touch time the time
    of one of them. *)
Definition touches_from_window (now : R) (cs : list Candle) (z : Zone) : Prop :=
  (forall p : R, In p (touch_prices z) ->
                 exists c : Candle, In c cs /\ (p = low c \/ p = high c))
  /\ (forall t : R, In t (touch_times z) ->
                    exists c : Candle, In c cs /\ t = candle_time now c).

(** An order book with no resting liquidity inside the band of [zone_100],
    and the market state of a timeframe that holds it. *)
Definition thin_book : OrderBook :=
  mkOrderBook (Some [(90, 1)]) (Some [(110, 1)]).

(** ** Notions used by the further properties *)

(** The candle of the window an accepted arrival becomes. *)
Definition stamp_arrival (arrival : CandleDict * R) : Candle :=
  stamp (snd arrival) (fst arrival).

(** Every price of the list is [p]. *)
Definition all_at (p : R) (prices : list R) : Prop :=
  Forall (fun x => x = p) prices.

(** The zone is of the type and has its center within the tolerance of the
    price, the distance being taken relative to the price. *)
Definition matches (zone : Zone) (ztype : ZoneType) (price tolerance : R)
  : Prop :=
  zone_type zone = ztype /\ Rabs (center zone - price) / price <= tolerance.

(** The touches of all zones of a registry. *)
Definition total_touches (zones : list Zone) : Z :=
  fold_right (fun z acc => (touches z + acc)%Z) 0%Z zones.

(** Where a zone lies: its type, center and band. *)
Definition place (z : Zone) : ZoneType * R * R * R :=
  (zone_type z, center z, zone_low z, zone_high z).

(** The zone after [k] further touches at one price and time. *)
Definition touched_again (k : nat) (z : Zone) (price time : R) : Zone :=
  Nat.iter k (fun z => update_touch z price time) z.

(** The zones a candle opens as a pivot of each type. *)
Definition flat_support (config : Config) (now : R) (c : Candle) : Zone :=
  new_zone config now SUPPORT (low c) (candle_time now c).
Definition flat_resistance (config : Config) (now : R) (c : Candle) : Zone :=
  new_zone config now RESISTANCE (high c) (candle_time now c).

(** A market state whose window is the given list of candles. *)
Definition state_of_window (cs : list Candle) : MarketState :=
  mkMarketState (length cs) cs OrderBook_empty [] [].

(** *** confirmations.py: the other timeframes *)

Definition set_confirmed_tf (d : list (string * bool)) (z : Zone) : Zone :=
  mkZone (zone_type z) (center z) (zone_low z) (zone_high z) (touches z)
         (touch_prices z) (touch_times z) (stats z) d
         (orderbook_strength z) (volume_strength z) (trade_flow_strength z)
         (successful_rejections z) (failed_breakouts z).

(** The verdict of [confirm_multiple_timeframes] for one timeframe. *)
Definition timeframe_confirms (zone : Zone) (tf_candles : list Candle) : bool :=
  if (length tf_candles <? 10)%nat then false
  else
    (2 <=? length (filter (touches_zone zone) (lastn 20 tf_candles)))%nat.

(** [confirm_multiple_timeframes]; the windows [candles_5m] and
    [candles_1h] it reads from the market state are its arguments here.
    Returns the confirmations and the zone as the call leaves it. *)
Definition confirm_multiple_timeframes (zone : Zone)
           (candles_5m candles_1h : list Candle)
  : list (string * bool) * Zone :=
  let confirmations :=
    [("5m"%string, timeframe_confirms zone candles_5m);
     ("1h"%string, timeframe_confirms zone candles_1h)] in
  (confirmations, set_confirmed_tf confirmations zone).

(** No level of one side of the book has a negative quantity. *)
Definition quantities_nonneg (levels : option (list (R * R))) : Prop :=
  match levels with
  | Some l => Forall (fun pv => 0 <= snd pv) l
  | None => True
  end.

(** A zone that nothing has confirmed: no confidence tier, no timeframe,
    no strength, no rejection; the clock is not before its creation or its
    last touch. *)
Definition unconfirmed (now : R) (z : Zone) : Prop :=
  confidence (stats z) <= 0.9
  /\ any_values (confirmed_tf z) = false
  /\ orderbook_strength z = None /\ volume_strength z = None
  /\ successful_rejections z = 0%Z
  /\ created (stats z) <= now /\ last_touch (stats z) <= now.

(** A book with liquidity inside the band of [zone_100], and ten candles
    of which two touch it. *)
Definition deep_book : OrderBook :=
  mkOrderBook (Some [(100, 4)]) (Some [(100.2, 2)]).
Definition touching_window : list Candle :=
  [flat 1; flat 2; wide 3; wide 4; wide 5; wide 6; wide 7; wide 8; wide 9;
   wide 10].

(** *** multi_symbol_manager.py: topics *)

(** [s.split(sep)] for a separator of one character. *)
Fixpoint split_on (sep : Ascii.ascii) (s : string) : list string :=
  match s with
  | EmptyString => [EmptyString]
  | String ch rest =>
      if Ascii.eqb ch sep then EmptyString :: split_on sep rest
      else
        match split_on sep rest with
        | part :: parts => String ch part :: parts
        | [] => [String ch EmptyString]
        end
  end.

(** The channels [_redis_producer] subscribes to. *)
Definition channels (symbols timeframes : list string) : list string :=
  flat_map
    (fun symbol =>
       map (fun tf => ("kline." ++ tf ++ "." ++ symbol)%string) timeframes
       ++ [("orderbook.50." ++ symbol)%string;
           ("publicTrade." ++ symbol)%string])
    symbols.

(** The branch [_process_single_message] takes for a topic: the candle of
    a timeframe, the order book or the trades of a symbol, or none. *)
Inductive Route : Type :=
| ToCandle (timeframe symbol : string)
| ToOrderbook (symbol : string)
| ToTrades (symbol : string)
| Unrouted.

Definition route_topic (symbol_analyzers : list string) (topic : string)
  : Route :=
  let parts := split_on "."%char topic in
  if (3 <=? length parts)%nat then
    let msg_type := nth 0 parts EmptyString in
    let symbol := last parts EmptyString in
    if existsb (String.eqb symbol) symbol_analyzers then
      if String.eqb msg_type "kline" then
        ToCandle (nth 1 parts EmptyString) symbol
      else if String.eqb msg_type "orderbook" then ToOrderbook symbol
      else if String.eqb msg_type "publicTrade" then ToTrades symbol
      else Unrouted
    else Unrouted
  else Unrouted.

(** The string holds no dot. *)
Fixpoint dot_free (s : string) : bool :=
  match s with
  | EmptyString => true
  | String ch rest => negb (Ascii.eqb ch "."%char) && dot_free rest
  end.

(** The payload of the pub/sub stream is a message, not a subscription
    notice. *)
Definition is_message (m : Manager.Message) : bool :=
  String.eqb (Manager.type m) "message".

(** [l] is [l'] with some elements left out. *)
Inductive subseq {A : Type} : list A -> list A -> Prop :=
| subseq_nil : subseq [] []
| subseq_skip (x : A) (l l' : list A) : subseq l l' -> subseq l (x :: l')
| subseq_take (x : A) (l l' : list A) : subseq l l' -> subseq (x :: l) (x :: l').

(** A queue of capacity 2 holding one message. *)
Definition small_state : Manager.State :=
  Manager.mkState (Manager.mkQueue 2 [kline_message])
                  (Manager.mkStats 0 0 0 0) [].

(** *** save_old_files/analyzer.py: one analysis pass *)

(** The confirmations [_run_analysis] applies to one zone: order book,
    volume, then the other timeframes (whose windows are arguments here). *)
Definition run_analysis_zone (market_state : MarketState)
           (candles_5m candles_1h : list Candle) (zone : Zone) : Zone :=
  snd (confirm_multiple_timeframes
         (run_analysis_confirm zone market_state) candles_5m candles_1h).

(** [_run_analysis]: detection, confirmation of every zone, replacement of
    the active zones, generation of the signals.  Returns the market state
    as the pass leaves it and the signals it handles. *)
Definition _run_analysis (config : Config)
           (ttest_1samp : list R -> R -> R * R)
           (min_confidence class_time now : R) (market_state : MarketState)
           (candles_5m candles_1h : list Candle)
  : PyResult (MarketState * list TradingSignal) :=
  zones <- detect_zones config ttest_1samp now market_state ;;
  let zones := map (run_analysis_zone market_state candles_5m candles_1h)
                   zones in
  let market_state := set_active_zones zones market_state in
  Ok (market_state,
      generate_signals min_confidence class_time now market_state).

(** A trade of a publicTrade payload: price [p], quantity [v] and, when
    present, side [S]. *)
Record TradeDict : Type := mkTradeDict {
  trade_p : R;
  trade_v : R;
  trade_S : option string
}.

Definition set_recent_trades (ts : list Trade) (ms : MarketState)
  : MarketState :=
  mkMarketState (max_candles ms) (candles ms) (orderbook ms) ts
                (active_zones ms).

(** The trade [_process_trades] appends for an entry of the payload, read
    at the clock reading of that entry. *)
Definition trade_of (entry : TradeDict * R) : Trade :=
  mkTrade (trade_p (fst entry)) (trade_v (fst entry))
          (match trade_S (fst entry) with
           | Some side => side
           | None => "unknown"%string
           end)
          (snd entry).

(** [_process_trades]: every trade of the payload, here with the clock
    reading at which it is handled, is appended to [recent_trades], a
    deque of capacity 1000. *)
Definition _process_trades (market_state : MarketState)
           (trades_data : list (TradeDict * R)) : MarketState :=
  set_recent_trades
    (fold_left (fun q entry => deque_append 1000 q (trade_of entry))
               trades_data (recent_trades market_state))
    market_state.

(** The strength is unset or lies above the threshold of 0.3 and at most
    at 1. *)
Definition gated (strength : option R) : Prop :=
  match strength with
  | None => True
  | Some s => 0.3 < s <= 1
  end.

(** A zone as the detector builds it: one touch or more, no strength, no
    rejection. *)
Definition fresh (z : Zone) : Prop :=
  (1 <= touches z)%Z /\ orderbook_strength z = None
  /\ volume_strength z = None /\ successful_rejections z = 0%Z.

(** * Properties *)

(** ** Comparisons and list slices *)

Lemma Rleb_true (x y : R) : x <= y -> Rleb x y = true.
Proof. intros H. unfold Rleb. destruct (Rle_dec x y); [reflexivity | lra]. Qed.

Lemma Rleb_false (x y : R) : y < x -> Rleb x y = false.
Proof. intros H. unfold Rleb. destruct (Rle_dec x y); [lra | reflexivity]. Qed.

Lemma Rltb_true (x y : R) : x < y -> Rltb x y = true.
Proof. intros H. unfold Rltb. destruct (Rlt_dec x y); [reflexivity | lra]. Qed.

Lemma Rltb_false (x y : R) : y <= x -> Rltb x y = false.
Proof. intros H. unfold Rltb. destruct (Rlt_dec x y); [lra | reflexivity]. Qed.

Lemma Reqb_true (x y : R) : x = y -> Reqb x y = true.
Proof. intros H. unfold Reqb. destruct (Req_EM_T x y); [reflexivity | lra]. Qed.

Lemma Reqb_false (x y : R) : x <> y -> Reqb x y = false.
Proof.
  intros H. unfold Reqb. destruct (Req_EM_T x y); [contradiction | reflexivity].
Qed.

Lemma Rleb_iff (x y : R) : Rleb x y = true <-> x <= y.
Proof.
  unfold Rleb. destruct (Rle_dec x y); split; intros; try reflexivity;
    try assumption; try discriminate; contradiction.
Qed.

Lemma Rltb_iff (x y : R) : Rltb x y = true <-> x < y.
Proof.
  unfold Rltb. destruct (Rlt_dec x y); split; intros; try reflexivity;
    try assumption; try discriminate; contradiction.
Qed.

(** Decides the comparisons of a goal whose operands are numerals. *)
Ltac rcompare :=
  repeat match goal with
    | |- context [Rleb ?x ?y] =>
        first [ rewrite (Rleb_true x y) by lra
              | rewrite (Rleb_false x y) by lra ]
    | |- context [Rltb ?x ?y] =>
        first [ rewrite (Rltb_true x y) by lra
              | rewrite (Rltb_false x y) by lra ]
    | |- context [Reqb ?x ?y] =>
        first [ rewrite (Reqb_true x y) by lra
              | rewrite (Reqb_false x y) by lra ]
    | |- context [Rmin ?x ?y] =>
        first [ rewrite (Rmin_left x y) by lra
              | rewrite (Rmin_right x y) by lra ]
    | |- context [Rmax ?x ?y] =>
        first [ rewrite (Rmax_left x y) by lra
              | rewrite (Rmax_right x y) by lra ]
    end.

Lemma Rmin_mono_r (a x y : R) : x <= y -> Rmin a x <= Rmin a y.
Proof.
  intros H. unfold Rmin.
  destruct (Rle_dec a x), (Rle_dec a y); lra.
Qed.

Lemma Rmin_nonneg (x y : R) : 0 <= x -> 0 <= y -> 0 <= Rmin x y.
Proof. intros Hx Hy. apply Rmin_glb; assumption. Qed.

(** Evaluates the integer expressions under [IZR]. *)
Ltac zcompute :=
  repeat match goal with
    | |- context [IZR ?z] =>
        let v := eval vm_compute in z in progress change z with v
    end.

(** ** The quality score, contribution by contribution *)

Lemma quality_score_parts (now : R) (z : Zone) :
  quality_score now z =
  Rmin 100 (touches_points z + confidence_points z + timeframe_points z
            + strength_points (orderbook_strength z)
            + strength_points (volume_strength z)
            + time_points now z + win_points z).
Proof.
  unfold quality_score, touches_points, confidence_points, timeframe_points,
    strength_points, time_points, win_points.
  cbv zeta.
  destruct (truthy (orderbook_strength z)), (truthy (volume_strength z)),
    (0 <? touches z)%Z; f_equal; ring.
Qed.

Lemma confidence_points_nonneg (z : Zone) : 0 <= confidence_points z.
Proof.
  unfold confidence_points.
  destruct (Rltb 0.95 _); [lra |]. destruct (Rltb 0.9 _); lra.
Qed.

Lemma timeframe_points_nonneg (z : Zone) : 0 <= timeframe_points z.
Proof.
  unfold timeframe_points, sum_values.
  assert (0 <= IZR (Z.of_nat (length (filter snd (confirmed_tf z))))).
  { apply IZR_le. lia. }
  lra.
Qed.

Lemma strength_points_nonneg (o : option R) :
  strength_nonneg o -> 0 <= strength_points o.
Proof.
  unfold strength_points. destruct o as [s |]; simpl; intros H.
  - destruct (negb (Reqb s 0)); [apply Rmin_nonneg; lra | lra].
  - lra.
Qed.

Lemma recency_factor_nonneg (now : R) (s : StatisticalMetrics) :
  0 <= recency_factor now s.
Proof. unfold recency_factor. apply Rmax_l. Qed.

Lemma decay_factor_pos (now h : R) (s : StatisticalMetrics) :
  0 < decay_factor now h s.
Proof. unfold decay_factor. apply exp_pos. Qed.

Lemma time_points_nonneg (now : R) (z : Zone) : 0 <= time_points now z.
Proof.
  unfold time_points.
  pose proof (recency_factor_nonneg now (stats z)).
  pose proof (decay_factor_pos now 12 (stats z)).
  lra.
Qed.

Lemma decay_factor_at_creation (now h : R) (s : StatisticalMetrics) :
  created s = now -> decay_factor now h s = 1.
Proof.
  intros H. unfold decay_factor. rewrite H.
  replace (- ln 2 * ((now - now) / 3600) / h) with 0.
  - apply exp_0.
  - unfold Rdiv. ring.
Qed.

Lemma recency_factor_at_touch (now : R) (s : StatisticalMetrics) :
  last_touch s = now -> recency_factor now s = 1.
Proof.
  intros H. unfold recency_factor. rewrite H.
  replace (1 - (now - now) / 3600 / 24) with 1 by (unfold Rdiv; ring).
  apply Rmax_right. lra.
Qed.

Lemma win_points_nonneg (z : Zone) :
  (0 <= successful_rejections z)%Z -> 0 <= win_points z.
Proof.
  intros H. unfold win_points.
  destruct (Z.ltb_spec 0 (touches z)); [| lra].
  assert (0 <= IZR (successful_rejections z)) by (apply IZR_le; assumption).
  assert (0 < IZR (touches z)) by (apply IZR_lt; assumption).
  assert (0 <= IZR (successful_rejections z) / IZR (touches z)).
  { apply Rmult_le_pos; [assumption |].
    apply Rlt_le, Rinv_0_lt_compat; assumption. }
  lra.
Qed.

Lemma touches_points_nonneg (z : Zone) :
  (0 <= touches z)%Z -> 0 <= touches_points z.
Proof. intros H. unfold touches_points. apply IZR_le. lia. Qed.

Lemma quality_score_nonneg (now : R) (z : Zone) :
  nonneg_zone z -> 0 <= quality_score now z.
Proof.
  intros (Ht & Hs & Ho & Hv). rewrite quality_score_parts.
  pose proof (touches_points_nonneg z Ht).
  pose proof (confidence_points_nonneg z).
  pose proof (timeframe_points_nonneg z).
  pose proof (strength_points_nonneg _ Ho).
  pose proof (strength_points_nonneg _ Hv).
  pose proof (time_points_nonneg now z).
  pose proof (win_points_nonneg z Hs).
  apply Rmin_nonneg; lra.
Qed.

Lemma quality_score_le_100 (now : R) (z : Zone) : quality_score now z <= 100.
Proof. unfold quality_score. cbv zeta. apply Rmin_l. Qed.

Lemma time_points_zone_100 (t s : Z) :
  time_points 0 (set_touches t (set_successful_rejections s zone_100)) = 10.
Proof.
  unfold time_points. simpl.
  rewrite decay_factor_at_creation by reflexivity.
  rewrite recency_factor_at_touch by reflexivity. lra.
Qed.


Lemma quality_score_three_of_three :
  quality_score 0 (set_touches 3 (set_successful_rejections 3 zone_100)) = 40.
Proof.
  rewrite quality_score_parts, time_points_zone_100.
  unfold touches_points, confidence_points, timeframe_points, strength_points,
    win_points.
  simpl. zcompute. rcompare. lra.
Qed.

Lemma quality_score_three_of_four :
  quality_score 0 (set_touches 4 (set_successful_rejections 3 zone_100)) = 37.5.
Proof.
  rewrite quality_score_parts, time_points_zone_100.
  unfold touches_points, confidence_points, timeframe_points, strength_points,
    win_points.
  simpl. zcompute. rcompare. lra.
Qed.

Lemma quality_score_negative_touches :
  quality_score 0 (set_touches (-2) zone_100) = -6.
Proof.
  rewrite quality_score_parts.
  change zone_100 with (set_successful_rejections 0 zone_100) at 6.
  rewrite time_points_zone_100.
  unfold touches_points, confidence_points, timeframe_points, strength_points,
    win_points.
  simpl. zcompute. rcompare. lra.
Qed.

(** C3, as stated, fails twice.  A fourth touch lowers the score of a zone
    with three touches and three successful rejections from 40 to 37.5,
    the win rate falling from 3/3 to 3/4; and a zone whose count of
    touches is negative has a negative score. *)
Lemma quality_score_claim_fails :
  (exists (now : R) (z : Zone) (t t' : Z),
      (t <= t')%Z
      /\ quality_score now (set_touches t' z)
         < quality_score now (set_touches t z))
  /\ (exists (now : R) (z : Zone), quality_score now z < 0).
Proof.
  split.
  - exists 0, (set_successful_rejections 3 zone_100), 3%Z, 4%Z.
    split; [lia |].
    rewrite quality_score_three_of_three, quality_score_three_of_four. lra.
  - exists 0, (set_touches (-2) zone_100).
    rewrite quality_score_negative_touches. lra.
Qed.

Lemma win_points_no_rejections (z : Zone) :
  successful_rejections z = 0%Z -> win_points z = 0.
Proof.
  intros H. unfold win_points. rewrite H.
  destruct (0 <? touches z)%Z; [unfold Rdiv; ring | reflexivity].
Qed.

Lemma touches_points_mono (z : Zone) (t t' : Z) :
  (t <= t')%Z ->
  touches_points (set_touches t z) <= touches_points (set_touches t' z).
Proof. intros H. unfold touches_points. simpl. apply IZR_le. lia. Qed.

(** C3, amended.  The score never exceeds 100; it is not negative when the
    zone's counts and stored strengths are not; the contribution of the
    touches is [min(8 * touches, 20)], which never decreases and stays at
    its cap of 20 from three touches on; and with no successful rejection
    recorded (the win rate being then 0 whatever the touches), the score
    itself never decreases when the touches increase, the other fields and
    the clock being fixed. *)
Theorem quality_score_bounds_and_touches (now : R) (z : Zone) :
  quality_score now z <= 100
  /\ (nonneg_zone z -> 0 <= quality_score now z)
  /\ (forall t t' : Z, (t <= t')%Z ->
        touches_points (set_touches t z) <= touches_points (set_touches t' z))
  /\ (forall t : Z, (3 <= t)%Z -> touches_points (set_touches t z) = 20)
  /\ (successful_rejections z = 0%Z ->
      forall t t' : Z, (t <= t')%Z ->
        quality_score now (set_touches t z)
        <= quality_score now (set_touches t' z)).
Proof.
  repeat split.
  - apply quality_score_le_100.
  - apply quality_score_nonneg.
  - apply touches_points_mono.
  - intros t Ht. unfold touches_points. simpl.
    rewrite Z.min_r by lia. reflexivity.
  - intros Hs t t' Hle. rewrite !quality_score_parts.
    apply Rmin_mono_r.
    rewrite !win_points_no_rejections by exact Hs.
    pose proof (touches_points_mono z t t' Hle) as Hm.
    change (confidence_points (set_touches t z)) with (confidence_points z).
    change (confidence_points (set_touches t' z)) with (confidence_points z).
    change (timeframe_points (set_touches t z)) with (timeframe_points z).
    change (timeframe_points (set_touches t' z)) with (timeframe_points z).
    change (time_points now (set_touches t z)) with (time_points now z).
    change (time_points now (set_touches t' z)) with (time_points now z).
    simpl orderbook_strength. simpl volume_strength. lra.
Qed.

Lemma quality_score_bounds_and_touches_witness :
  0 <= quality_score 0 zone_100
  /\ quality_score 0 (set_touches 1 zone_100)
     <= quality_score 0 (set_touches 2 zone_100).
Proof.
  destruct (quality_score_bounds_and_touches 0 zone_100)
    as (_ & Hpos & _ & _ & Hmono).
  split.
  - apply Hpos. unfold nonneg_zone. simpl. repeat split; lia.
  - apply Hmono; [reflexivity | lia].
Defined.


(** ** Position size *)

Lemma quality_score_zone_80 : quality_score 0 zone_80 = 80.
Proof.
  rewrite quality_score_parts.
  unfold touches_points, confidence_points, timeframe_points, strength_points,
    win_points, time_points.
  rewrite decay_factor_at_creation by reflexivity.
  rewrite recency_factor_at_touch by reflexivity.
  simpl. zcompute. rcompare. simpl. rcompare. lra.
Qed.

(** C8.  The position size is the product of the risk base, twice the
    confidence, the quality over 100 and the timeframe multiplier (1.5 when
    some timeframe is confirmed, 1 otherwise), capped at three times the
    risk base; with a risk base of 0.02, a confidence of 0.9, a quality of
    80 and no confirmed timeframe it is 0.02 * 1.8 * 0.8 * 1 = 0.0288,
    below the cap of 0.06. *)
Theorem calculate_position_size_formula
        (now : R) (s : TradingSignal) (risk_base : R) :
  calculate_position_size now s risk_base
  = Rmin (risk_base * (signal_confidence s * 2)
          * (quality_score now (zone s) / 100)
          * (if any_values (confirmed_tf (zone s)) then 1.5 else 1))
         (3 * risk_base)
  /\ (signal_confidence s = 0.9 ->
      quality_score now (zone s) = 80 ->
      any_values (confirmed_tf (zone s)) = false ->
      calculate_position_size now s 0.02 = 0.02 * 1.8 * 0.8 * 1
      /\ calculate_position_size now s 0.02 = 0.0288
      /\ 0.0288 < 3 * 0.02
      /\ 3 * 0.02 = 0.06).
Proof.
  split.
  - unfold calculate_position_size. cbv zeta. f_equal. ring.
  - intros Hc Hq Ht. unfold calculate_position_size. cbv zeta.
    rewrite Hc, Hq, Ht. rcompare. lra.
Qed.

Lemma calculate_position_size_formula_witness :
  calculate_position_size 0 signal_80 0.02 = 0.0288.
Proof.
  destruct (calculate_position_size_formula 0 signal_80 0.02) as [_ H].
  destruct H as (_ & H & _).
  - reflexivity.
  - exact quality_score_zone_80.
  - reflexivity.
  - exact H.
Defined.

(** ** Bounce confidence *)


Lemma bounce_confidence_bounds_aux
      (now : R) (zone : Zone) (market_state : MarketState) :
  strength_nonneg (orderbook_strength zone) ->
  strength_nonneg (volume_strength zone) ->
  0 <= quality_score now zone ->
  0.5 <= _calculate_bounce_confidence now zone market_state <= 1.
Proof.
  intros Ho Hv Hq.
  unfold _calculate_bounce_confidence. cbv zeta.
  split; [| apply Rmin_r].
  apply Rmin_glb; [| lra].
  assert (Hvol : 0.5 <= (if truthy (volume_strength zone)
                         then 0.5 + match volume_strength zone with
                                    | Some s => s | None => 0 end * 0.2
                         else 0.5)).
  { destruct (volume_strength zone) as [s |]; simpl in *.
    - destruct (negb (Reqb s 0)); lra.
    - lra. }
  set (c1 := if truthy (volume_strength zone) then _ else _) in *.
  assert (Hob : c1 <= (if truthy (orderbook_strength zone)
                       then c1 + match orderbook_strength zone with
                                 | Some s => s | None => 0 end * 0.15
                       else c1)).
  { destruct (orderbook_strength zone) as [s |]; simpl in *.
    - destruct (negb (Reqb s 0)); lra.
    - lra. }
  set (c2 := if truthy (orderbook_strength zone) then _ else _) in *.
  destruct (any_values (confirmed_tf zone)); lra.
Qed.




(** ** Candle intake *)

Lemma non_finite_not_finite (o : option pyfloat) :
  non_finite o -> finite_value o = None.
Proof. intros [H | [H | H]]; rewrite H; reflexivity. Qed.

Lemma has_non_finite_field_rejected (candle : CandleDict) :
  has_non_finite_field candle -> _validate_candle candle = false.
Proof.
  intros H. unfold _validate_candle, all_finite.
  destruct H as [H | [H | [H | [H | H]]]];
    rewrite (non_finite_not_finite _ H);
    repeat match goal with
      | |- context [match finite_value ?o with _ => _ end] =>
          destruct (finite_value o)
      end; reflexivity.
Qed.

Lemma ohlc_inconsistent_rejected (candle : CandleDict) :
  ohlc_inconsistent candle -> _validate_candle candle = false.
Proof.
  intros (o & h & l & c & Ho & Hh & Hl & Hc & Hbad).
  unfold _validate_candle. apply andb_false_iff. right.
  unfold ohlc_consistent, num. rewrite Ho, Hh, Hl, Hc. simpl.
  apply andb_false_iff.
  destruct (Rle_dec l (Rmin o c)) as [Hle | Hgt].
  - right. apply Rleb_false.
    pose proof (Rmin_l o c). pose proof (Rmin_r o c).
    pose proof (Rmax_l o c). pose proof (Rmax_r o c).
    destruct Hbad as [Hb | [Hb | [Hb | [Hb | Hb]]]]; lra.
  - left. apply Rleb_false. lra.
Qed.

(** C1.  Whatever the candle dictionary and the timeframe, [add_candle]
    returns, and has either appended the candle to the window, logging
    nothing, or left the market state as it was and logged one warning; a
    candle with a non-finite numeric field or inconsistent OHLC values is
    dropped in this way. *)
Theorem add_candle_appends_or_drops
        (self : MarketState) (candle : CandleDict) (timeframe : string)
        (now : R) :
  returns (add_candle self candle timeframe now)
  /\ (add_candle self candle timeframe now
      = Ok (appended self candle now, [])
      \/ add_candle self candle timeframe now
         = Ok (self, [InvalidCandle timeframe candle]))
  /\ level (InvalidCandle timeframe candle) = WARNING
  /\ (has_non_finite_field candle \/ ohlc_inconsistent candle ->
      add_candle self candle timeframe now
      = Ok (self, [InvalidCandle timeframe candle])).
Proof.
  unfold add_candle, returns, appended.
  repeat split.
  - destruct (negb (_validate_candle candle)); eexists; reflexivity.
  - destruct (negb (_validate_candle candle)); [right | left]; reflexivity.
  - intros [H | H].
    + rewrite (has_non_finite_field_rejected _ H). reflexivity.
    + rewrite (ohlc_inconsistent_rejected _ H). reflexivity.
Qed.

Lemma add_candle_appends_or_drops_witness :
  add_candle (MarketState_init 500) candle_nan "1" 0
  = Ok (MarketState_init 500, [InvalidCandle "1" candle_nan])
  /\ add_candle (MarketState_init 500) candle_high_below_low "1" 0
     = Ok (MarketState_init 500, [InvalidCandle "1" candle_high_below_low]).
Proof.
  split.
  - apply (add_candle_appends_or_drops (MarketState_init 500) candle_nan "1" 0).
    left. unfold has_non_finite_field, non_finite. simpl. tauto.
  - apply (add_candle_appends_or_drops
             (MarketState_init 500) candle_high_below_low "1" 0).
    right. exists 100, 98, 99, 101. simpl.
    repeat split; try reflexivity. left. lra.
Defined.

(** A valid candle does enter the window, with its timestamp. *)
Lemma add_candle_valid_example :
  add_candle (MarketState_init 500) candle_ok "1" 7
  = Ok (set_candles [mkCandle 100 102 99 101 10 (Some 7)]
                    (MarketState_init 500), []).
Proof.
  unfold add_candle, _validate_candle, all_finite, ohlc_consistent, num.
  simpl. rcompare. reflexivity.
Qed.

(** ** The short window *)

(** C6.  On a market state whose candle window holds fewer than seven
    candles, [detect_zones] returns, and returns the empty list. *)
Theorem detect_zones_short_window
        (config : Config) (ttest_1samp : list R -> R -> R * R) (now : R)
        (market_state : MarketState) :
  (length (candles market_state) < 7)%nat ->
  detect_zones config ttest_1samp now market_state = Ok []
  /\ returns (detect_zones config ttest_1samp now market_state).
Proof.
  intros H. unfold detect_zones, candles_1m, returns. cbv zeta.
  destruct (Nat.ltb_spec (length (candles market_state)) 7); [| lia].
  split; [reflexivity | eexists; reflexivity].
Qed.

Lemma detect_zones_short_window_witness :
  detect_zones default_config (fun _ _ => (0, 1)) 0 bounce_state = Ok [].
Proof.
  apply (detect_zones_short_window default_config (fun _ _ => (0, 1)) 0
                                   bounce_state).
  simpl. lia.
Defined.

(** ** The full queue *)

Lemma put_nowait_full (q : Manager.Queue) (m : Manager.Message) :
  Manager.full q = true -> Manager.put_nowait q m = Raise QueueFull.
Proof. intros H. unfold Manager.put_nowait. rewrite H. reflexivity. Qed.

Lemma producer_body_returns (self : Manager.State) (m : Manager.Message) :
  returns (Manager.producer_body self m).
Proof.
  unfold Manager.producer_body, returns.
  destruct (String.eqb (Manager.type m) "message"); [| eexists; reflexivity].
  unfold Manager.put_nowait.
  destruct (Manager.full (Manager.message_queue self)); simpl;
    eexists; reflexivity.
Qed.

(** C7.  The queue of capacity 100000 being full, the producer's step on a
    message returns at once (the step is a total function of the state and
    the message), leaves the queue as it was, so that the message is
    dropped, and adds exactly one to [messages_dropped]; no exception
    leaves the step, and the producer goes on with the messages that
    follow. *)
Theorem producer_drops_when_full
        (self : Manager.State) (message : Manager.Message)
        (rest : list Manager.Message) :
  Manager.maxsize (Manager.message_queue self) = 100000%Z ->
  (100000 <= Manager.qsize (Manager.message_queue self))%Z ->
  Manager.type message = "message"%string ->
  Manager.producer_body self message = Ok (Manager.drop_message self)
  /\ Manager.message_queue (Manager.drop_message self)
     = Manager.message_queue self
  /\ Manager.messages_dropped (Manager.stats (Manager.drop_message self))
     = (Manager.messages_dropped (Manager.stats self) + 1)%Z
  /\ Manager.messages_processed (Manager.stats (Manager.drop_message self))
     = Manager.messages_processed (Manager.stats self)
  /\ (forall (s : Manager.State) (m : Manager.Message),
         returns (Manager.producer_body s m))
  /\ Manager._redis_producer self (message :: rest)
     = Manager._redis_producer (Manager.drop_message self) rest.
Proof.
  intros Hmax Hfull Htype.
  assert (Hf : Manager.full (Manager.message_queue self) = true).
  { unfold Manager.full. rewrite Hmax. simpl.
    apply Z.leb_le. exact Hfull. }
  assert (Hbody : Manager.producer_body self message
                  = Ok (Manager.drop_message self)).
  { unfold Manager.producer_body. rewrite Htype. simpl.
    rewrite (put_nowait_full _ _ Hf). reflexivity. }
  split; [exact Hbody |].
  split; [reflexivity |].
  split; [reflexivity |].
  split; [reflexivity |].
  split; [apply producer_body_returns |].
  simpl. rewrite Hbody. reflexivity.
Qed.

Lemma producer_drops_when_full_witness :
  Manager.messages_dropped
    (Manager.stats (Manager._redis_producer full_state [kline_message]))
  = 100%Z.
Proof.
  destruct (producer_drops_when_full full_state kline_message [])
    as (_ & _ & Hd & _ & _ & Hloop).
  - reflexivity.
  - unfold Manager.qsize.
    change (Manager.items (Manager.message_queue full_state))
      with (repeat kline_message (Z.to_nat 100000)).
    rewrite repeat_length, Z2Nat.id; lia.
  - reflexivity.
  - rewrite Hloop.
    change (Manager._redis_producer (Manager.drop_message full_state) [])
      with (Manager.drop_message full_state).
    rewrite Hd. reflexivity.
Defined.


(** ** The zone registry *)

Ltac rabs :=
  repeat match goal with
    | |- context [Rabs ?x] =>
        first [ rewrite (Rabs_pos_eq x) by lra
              | rewrite (Rabs_left x) by lra ]
    end.

(** C5, as stated, fails.  With a tolerance of 0.003, the prices 1000 then
    997 are within tolerance relative to the first (3/1000), but the
    registry divides the distance by the incoming price (3/997 > 0.003) and
    opens a second zone. *)
Lemma registry_claim_fails :
  ~ (forall (config : Config) (now : R) (ztype : ZoneType)
            (p1 p2 tolerance t1 t2 : R),
        Rabs (p1 - p2) / p1 <= tolerance ->
        exists z : Zone,
          feed_two config now ztype p1 p2 tolerance t1 t2 = Ok [z]
          /\ touches z = 2%Z).
Proof.
  intros H.
  destruct (H default_config 0 SUPPORT 1000 997 0.003 1 2) as (z & Hz & _).
  - rabs. lra.
  - revert Hz. unfold feed_two. simpl. rabs. unfold float_div.
    rcompare. simpl. rcompare. discriminate.
Qed.

Lemma add_to_empty (config : Config) (now : R) (ztype : ZoneType)
      (price tolerance timestamp : R) :
  _add_or_update_zone config now [] ztype price tolerance timestamp
  = Ok [new_zone config now ztype price timestamp].
Proof. reflexivity. Qed.

Lemma ZoneType_eqb_refl (t : ZoneType) : ZoneType_eqb t t = true.
Proof. destruct t; reflexivity. Qed.

Lemma add_matching_head (config : Config) (now : R) (zone : Zone)
      (rest : list Zone) (ztype : ZoneType) (price tolerance timestamp : R) :
  zone_type zone = ztype -> price <> 0 ->
  Rabs (center zone - price) / price <= tolerance ->
  _add_or_update_zone config now (zone :: rest) ztype price tolerance timestamp
  = Ok (update_touch zone price timestamp :: rest).
Proof.
  intros Ht Hp Hle. simpl. rewrite Ht, ZoneType_eqb_refl.
  unfold float_div. rewrite (Reqb_false price 0) by exact Hp. simpl.
  rewrite Rleb_true by exact Hle. reflexivity.
Qed.

Lemma add_missing_head (config : Config) (now : R) (zone : Zone)
      (ztype : ZoneType) (price tolerance timestamp : R) :
  zone_type zone = ztype -> price <> 0 ->
  tolerance < Rabs (center zone - price) / price ->
  _add_or_update_zone config now [zone] ztype price tolerance timestamp
  = Ok [zone; new_zone config now ztype price timestamp].
Proof.
  intros Ht Hp Hlt. simpl. rewrite Ht, ZoneType_eqb_refl.
  unfold float_div. rewrite (Reqb_false price 0) by exact Hp. simpl.
  rewrite Rleb_false by exact Hlt. reflexivity.
Qed.

(** C5, amended.  The distance to the center is measured relative to the
    incoming price: for two pivot prices p1 then p2 of one zone type with
    p2 nonzero and |p1 - p2| / p2 <= tolerance, the empty registry ends
    with exactly one zone, centered at p1, with two touches; a third price
    p3 of that type, nonzero and with |p1 - p3| / p3 > tolerance, then
    leaves exactly two zones. *)
Theorem registry_two_then_three
        (config : Config) (now : R) (ztype : ZoneType)
        (p1 p2 p3 tolerance t1 t2 t3 : R) :
  p2 <> 0 ->
  Rabs (p1 - p2) / p2 <= tolerance ->
  exists z : Zone,
    feed_two config now ztype p1 p2 tolerance t1 t2 = Ok [z]
    /\ touches z = 2%Z /\ center z = p1
    /\ touch_prices z = [p1; p2] /\ touch_times z = [t1; t2]
    /\ (p3 <> 0 ->
        tolerance < Rabs (p1 - p3) / p3 ->
        exists z3 : Zone,
          feed_three config now ztype p1 p2 p3 tolerance t1 t2 t3
          = Ok [z; z3]
          /\ touches z3 = 1%Z /\ center z3 = p3).
Proof.
  intros Hp2 Hle.
  exists (update_touch (new_zone config now ztype p1 t1) p2 t2).
  assert (Htwo : feed_two config now ztype p1 p2 tolerance t1 t2
                 = Ok [update_touch (new_zone config now ztype p1 t1) p2 t2]).
  { unfold feed_two. rewrite add_to_empty. unfold bind at 1.
    apply add_matching_head; [reflexivity | exact Hp2 | exact Hle]. }
  split; [exact Htwo |].
  split; [reflexivity |]. split; [reflexivity |].
  split; [reflexivity |]. split; [reflexivity |].
  intros Hp3 Hlt. exists (new_zone config now ztype p3 t3).
  split; [| split; reflexivity].
  unfold feed_three. rewrite Htwo. unfold bind at 1.
  apply add_missing_head; [reflexivity | exact Hp3 | exact Hlt].
Qed.

Lemma registry_two_then_three_witness :
  exists z : Zone,
    feed_two default_config 0 SUPPORT 100 100.1 0.003 1 2 = Ok [z]
    /\ touches z = 2%Z
    /\ exists z3 : Zone,
        feed_three default_config 0 SUPPORT 100 100.1 105 0.003 1 2 3
        = Ok [z; z3].
Proof.
  destruct (registry_two_then_three default_config 0 SUPPORT
                                    100 100.1 105 0.003 1 2 3)
    as (z & Htwo & Ht & _ & _ & _ & Hthree).
  - lra.
  - rabs. lra.
  - exists z. split; [exact Htwo |]. split; [exact Ht |].
    destruct Hthree as (z3 & H3 & _).
    + lra.
    + rabs. lra.
    + exists z3. exact H3.
Defined.

(** ** The invariant of a zone *)

(** C9, as stated, fails at creation.  A pivot price of -100 creates, with
    the configured width multiplier of 0.5, a zone whose low (-99.5) lies
    above its center and whose high (-100.5) lies below it. *)
Lemma zone_invariant_claim_fails :
  ~ ((forall (config : Config) (now : R) (ztype : ZoneType)
             (price timestamp : R),
         zone_invariant (new_zone config now ztype price timestamp))
     /\ (forall (z : Zone) (price time : R),
            zone_invariant z -> zone_invariant (update_touch z price time))).
Proof.
  intros [H _].
  destruct (H default_config 0 SUPPORT (-100) 1) as [[Hlow _] _].
  simpl in Hlow. lra.
Qed.

Lemma new_zone_invariant (config : Config) (now : R) (ztype : ZoneType)
      (price timestamp : R) :
  0 <= ZONE_WIDTH_ATR_MULTIPLIER config -> 0 <= price ->
  zone_invariant (new_zone config now ztype price timestamp).
Proof.
  intros Hw Hp. unfold zone_invariant. simpl.
  repeat split; try reflexivity; nra.
Qed.

Lemma update_touch_invariant (z : Zone) (price time : R) :
  zone_invariant z -> zone_invariant (update_touch z price time).
Proof.
  intros (Hband & Ht & Hlen). unfold zone_invariant, update_touch. simpl.
  split; [exact Hband |].
  rewrite !length_app. simpl. split; lia.
Qed.

(** *** What every zone of a detection pass satisfies *)

Section DetectorInvariant.

Variable config : Config.
Variable ttest_1samp : list R -> R -> R * R.
Variable now : R.

(** A property of zones that creation establishes and a touch keeps, for
    the prices and times the candles [cs] provide, and that does not
    depend on the statistics. *)
Variable P : Zone -> Prop.
Variable cs : list Candle.

Hypothesis P_new :
  forall (c : Candle) (ztype : ZoneType),
    In c cs ->
    P (new_zone config now ztype (pivot_of c ztype) (candle_time now c)).
Hypothesis P_touch :
  forall (c : Candle) (ztype : ZoneType) (z : Zone),
    In c cs -> P z ->
    P (update_touch z (pivot_of c ztype) (candle_time now c)).
Hypothesis P_stats :
  forall (z : Zone) (s : StatisticalMetrics), P z -> P (set_stats s z).

Lemma add_or_update_Forall (c : Candle) (ztype : ZoneType) (tolerance : R)
      (zones zones' : list Zone) :
  In c cs ->
  Forall P zones ->
  _add_or_update_zone config now zones ztype (pivot_of c ztype) tolerance
                      (candle_time now c) = Ok zones' ->
  Forall P zones'.
Proof.
  intros Hc. revert zones'.
  induction zones as [| zone rest IH]; intros zones' Hall Hrun.
  - simpl in Hrun. injection Hrun as <-.
    constructor; [apply P_new; exact Hc | constructor].
  - inversion Hall as [| ? ? Hz Hrest]; subst.
    simpl in Hrun.
    destruct (ZoneType_eqb (zone_type zone) ztype).
    + destruct (float_div (Rabs (center zone - pivot_of c ztype))
                          (pivot_of c ztype)) as [q | e];
        simpl in Hrun; [| discriminate].
      destruct (Rleb q tolerance).
      * injection Hrun as <-.
        constructor; [apply P_touch; assumption | exact Hrest].
      * destruct (_add_or_update_zone config now rest ztype
                    (pivot_of c ztype) tolerance (candle_time now c))
          as [rest' |] eqn:Hr; simpl in Hrun; [| discriminate].
        injection Hrun as <-.
        constructor; [exact Hz | apply IH; [exact Hrest | reflexivity]].
    + simpl in Hrun.
      destruct (_add_or_update_zone config now rest ztype
                  (pivot_of c ztype) tolerance (candle_time now c))
        as [rest' |] eqn:Hr; simpl in Hrun; [| discriminate].
      injection Hrun as <-.
      constructor; [exact Hz | apply IH; [exact Hrest | reflexivity]].
Qed.

Lemma scan_index_Forall (zones zones' : list Zone) (i : nat) :
  Forall P zones ->
  scan_index config now cs zones i = Ok zones' ->
  Forall P zones'.
Proof.
  intros Hall Hrun. unfold scan_index in Hrun.
  destruct (nth_error cs i) as [ci |] eqn:Hi; [| discriminate].
  apply nth_error_In in Hi.
  destruct (py_min _) as [lowest |]; simpl in Hrun; [| discriminate].
  destruct (Reqb (low ci) lowest).
  - destruct (_add_or_update_zone config now zones SUPPORT (low ci) _ _)
      as [zones1 |] eqn:H1; simpl in Hrun; [| discriminate].
    apply (add_or_update_Forall ci SUPPORT) in H1; [| assumption ..].
    destruct (py_max _) as [highest |]; simpl in Hrun; [| discriminate].
    destruct (Reqb (high ci) highest).
    + apply (add_or_update_Forall ci RESISTANCE) in Hrun; assumption.
    + injection Hrun as <-. exact H1.
  - simpl in Hrun.
    destruct (py_max _) as [highest |]; simpl in Hrun; [| discriminate].
    destruct (Reqb (high ci) highest).
    + apply (add_or_update_Forall ci RESISTANCE) in Hrun; assumption.
    + injection Hrun as <-. exact Hall.
Qed.

Lemma for_each_scan_Forall (indices : list nat) (zones zones' : list Zone) :
  Forall P zones ->
  for_each (scan_index config now cs) indices zones = Ok zones' ->
  Forall P zones'.
Proof.
  revert zones. induction indices as [| i rest IH]; intros zones Hall Hrun.
  - simpl in Hrun. injection Hrun as <-. exact Hall.
  - simpl in Hrun.
    destruct (scan_index config now cs zones i) as [zones1 |] eqn:H1;
      simpl in Hrun; [| discriminate].
    apply (IH zones1); [| exact Hrun].
    apply (scan_index_Forall zones zones1 i); assumption.
Qed.

Lemma Forall_filter (f : Zone -> bool) (zones : list Zone) :
  Forall P zones -> Forall P (filter f zones).
Proof.
  intros H. apply Forall_forall. intros z Hz.
  apply filter_In in Hz. destruct Hz as [Hz _].
  revert z Hz. apply Forall_forall. exact H.
Qed.

Lemma statistical_validation_Forall (zones : list Zone)
      (candles : list Candle) :
  Forall P zones ->
  Forall P (_statistical_validation ttest_1samp zones candles).
Proof.
  intros H. unfold _statistical_validation.
  destruct zones as [| z rest]; [exact H |].
  destruct (length candles <? 20)%nat; [exact H |].
  apply Forall_filter. apply Forall_forall. intros z' Hz'.
  apply in_map_iff in Hz'. destruct Hz' as (z0 & <- & Hz0).
  assert (P z0) by (revert z0 Hz0; apply Forall_forall; exact H).
  unfold validate_zone.
  destruct (3 <=? length (touch_prices z0))%nat;
    [apply P_stats |]; assumption.
Qed.

Lemma detect_zones_Forall (market_state : MarketState)
      (zones : list Zone) :
  candles market_state = cs ->
  detect_zones config ttest_1samp now market_state = Ok zones ->
  Forall P zones.
Proof.
  intros Hcs Hrun. unfold detect_zones, candles_1m in Hrun.
  rewrite Hcs in Hrun. cbv zeta in Hrun.
  destruct (length cs <? 7)%nat.
  - injection Hrun as <-. constructor.
  - destruct (for_each _ _ _) as [zones1 |] eqn:H1; simpl in Hrun;
      [| discriminate].
    injection Hrun as <-.
    apply statistical_validation_Forall, Forall_filter.
    apply (for_each_scan_Forall (seq 3 (length cs - 6)) [] zones1);
      [constructor | exact H1].
Qed.

End DetectorInvariant.

Lemma add_or_update_returns (config : Config) (now : R) (zones : list Zone)
      (ztype : ZoneType) (price tolerance timestamp : R) :
  price <> 0 ->
  returns (_add_or_update_zone config now zones ztype price tolerance
                               timestamp).
Proof.
  intros Hp. unfold returns.
  induction zones as [| zone rest [rest' IH]]; simpl.
  - eexists; reflexivity.
  - unfold float_div. rewrite (Reqb_false price 0) by exact Hp. rewrite IH.
    destruct (ZoneType_eqb (zone_type zone) ztype); simpl;
      [destruct (Rleb _ tolerance) |]; eexists; reflexivity.
Qed.

Lemma slice_nonempty {A} (i : nat) (l : list A) :
  (i < length l)%nat -> slice (i - 3) (i + 4) l <> [].
Proof.
  intros Hi. unfold slice.
  assert (Hlen : (0 < length (firstn (i + 4 - (i - 3)) (skipn (i - 3) l)))%nat).
  { rewrite length_firstn, length_skipn. lia. }
  destruct (firstn _ _); [simpl in Hlen; lia | discriminate].
Qed.

Lemma scan_index_returns (config : Config) (now : R) (cs : list Candle)
      (zones : list Zone) (i : nat) :
  (i < length cs)%nat ->
  Forall (fun c => low c <> 0 /\ high c <> 0) cs ->
  returns (scan_index config now cs zones i).
Proof.
  intros Hi Hnz. unfold scan_index.
  destruct (nth_error cs i) as [ci |] eqn:Hci;
    [| apply nth_error_None in Hci; lia].
  assert (Hin : In ci cs) by (eapply nth_error_In; exact Hci).
  rewrite Forall_forall in Hnz. destruct (Hnz ci Hin) as [Hl Hh].
  pose proof (slice_nonempty i cs Hi) as Hw.
  destruct (slice (i - 3) (i + 4) cs) as [| w ws]; [contradiction |].
  simpl.
  assert (Hsup : returns
            (if Reqb (low ci) (fold_left Rmin (map low ws) (low w))
             then _add_or_update_zone config now zones SUPPORT (low ci)
                    (ZONE_TOLERANCE_PCT config) (candle_time now ci)
             else Ok zones)).
  { destruct (Reqb _ _); [apply add_or_update_returns; exact Hl |].
    eexists; reflexivity. }
  destruct Hsup as [zones1 ->]. simpl.
  destruct (Reqb _ _); [apply add_or_update_returns; exact Hh |].
  eexists; reflexivity.
Qed.

Lemma for_each_scan_returns (config : Config) (now : R) (cs : list Candle)
      (indices : list nat) (zones : list Zone) :
  Forall (fun i => (i < length cs)%nat) indices ->
  Forall (fun c => low c <> 0 /\ high c <> 0) cs ->
  returns (for_each (scan_index config now cs) indices zones).
Proof.
  intros Hidx Hnz. revert zones.
  induction Hidx as [| i rest Hi _ IH]; intros zones; simpl.
  - eexists; reflexivity.
  - destruct (scan_index_returns config now cs zones i Hi Hnz) as [z1 ->].
    simpl. apply IH.
Qed.

(** With no zero low or high in the window, a detection pass returns. *)
Lemma detect_zones_returns (config : Config)
      (ttest_1samp : list R -> R -> R * R) (now : R)
      (market_state : MarketState) :
  Forall (fun c => low c <> 0 /\ high c <> 0) (candles market_state) ->
  returns (detect_zones config ttest_1samp now market_state).
Proof.
  intros Hnz. unfold detect_zones, candles_1m. cbv zeta.
  destruct (length (candles market_state) <? 7)%nat eqn:Hlen;
    [eexists; reflexivity |].
  apply Nat.ltb_ge in Hlen.
  destruct (for_each_scan_returns config now (candles market_state)
              (seq 3 (length (candles market_state) - 6)) [])
    as [zones1 ->]; [| exact Hnz | simpl; eexists; reflexivity].
  apply Forall_forall. intros i Hi. apply in_seq in Hi. lia.
Qed.

(** C9, amended.  The width multiplier not being negative: a zone created
    at a pivot price that is not negative satisfies
    zone_low <= center <= zone_high and
    touches == len(touch_prices) == len(touch_times); every [update_touch]
    preserves both; and so every zone a detection pass returns over a
    window without negative lows and highs satisfies them. *)
Theorem zone_invariant_kept
        (config : Config) (ttest_1samp : list R -> R -> R * R) (now : R) :
  0 <= ZONE_WIDTH_ATR_MULTIPLIER config ->
  (forall (ztype : ZoneType) (price timestamp : R),
      0 <= price ->
      zone_invariant (new_zone config now ztype price timestamp))
  /\ (forall (z : Zone) (price time : R),
         zone_invariant z -> zone_invariant (update_touch z price time))
  /\ (forall (market_state : MarketState) (zones : list Zone),
         nonneg_prices (candles market_state) ->
         detect_zones config ttest_1samp now market_state = Ok zones ->
         Forall zone_invariant zones).
Proof.
  intros Hw.
  split; [intros; apply new_zone_invariant; assumption |].
  split; [apply update_touch_invariant |].
  intros ms zones Hnn Hrun.
  assert (Hprice : forall c ztype, In c (candles ms) -> 0 <= pivot_of c ztype).
  { intros c ztype Hc. unfold nonneg_prices in Hnn.
    rewrite Forall_forall in Hnn. destruct (Hnn c Hc).
    destruct ztype; assumption. }
  apply (detect_zones_Forall config ttest_1samp now zone_invariant
                             (candles ms)) with (market_state := ms).
  - intros c ztype Hc. apply new_zone_invariant; [exact Hw | auto].
  - intros c ztype z _ Hz. apply update_touch_invariant. exact Hz.
  - intros z s Hz. exact Hz.
  - reflexivity.
  - exact Hrun.
Qed.

(** ** Two passes over one market state *)

Lemma add_other_type (config : Config) (now : R) (zone : Zone)
      (rest : list Zone) (ztype : ZoneType) (price tolerance timestamp : R) :
  ZoneType_eqb (zone_type zone) ztype = false ->
  _add_or_update_zone config now (zone :: rest) ztype price tolerance timestamp
  = (rest' <- _add_or_update_zone config now rest ztype price tolerance
                                  timestamp ;;
     Ok (zone :: rest')).
Proof. intros H. simpl. rewrite H. reflexivity. Qed.

Lemma add_far_head (config : Config) (now : R) (zone : Zone)
      (rest : list Zone) (ztype : ZoneType) (price tolerance timestamp : R) :
  price <> 0 ->
  tolerance < Rabs (center zone - price) / price ->
  _add_or_update_zone config now (zone :: rest) ztype price tolerance timestamp
  = (rest' <- _add_or_update_zone config now rest ztype price tolerance
                                  timestamp ;;
     Ok (zone :: rest')).
Proof.
  intros Hp Hlt. simpl.
  destruct (ZoneType_eqb (zone_type zone) ztype); [| reflexivity].
  unfold float_div. rewrite (Reqb_false price 0) by exact Hp. simpl.
  rewrite Rleb_false by exact Hlt. reflexivity.
Qed.

(** Runs the registry on explicit zones and prices. *)
Ltac side := first [reflexivity | lra | simpl; rabs; lra].
Ltac feed :=
  repeat first
    [ rewrite add_to_empty
    | rewrite add_matching_head by side
    | rewrite add_other_type by reflexivity
    | rewrite add_far_head by side
    | progress cbn [bind] ].

(** Runs the pivot scan on an explicit window. *)
Ltac scan :=
  unfold scan_index;
  cbn [nth_error flat wide low high Nat.sub Nat.add slice skipn firstn map
       py_min py_max fold_left bind candle_time timestamp];
  rcompare.

Lemma quiet_candles :
  candles quiet_state
  = [flat 1; flat 2; flat 3; flat 4; flat 5; flat 6; flat 7; flat 8; flat 9].
Proof. reflexivity. Qed.

Lemma later_candles (r1 : list Zone) :
  candles (fold_left receive later_arrivals (set_active_zones r1 quiet_state))
  = [flat 4; flat 5; flat 6; flat 7; flat 8; flat 9; flat 10;
     wide 11; wide 12].
Proof. reflexivity. Qed.

(** The earlier pass finds a support zone at 100 and a resistance zone at
    101, three touches each. *)
Lemma earlier_pass (now : R) :
  detect_zones default_config ttest_stub now quiet_state
  = Ok [update_touch
          (update_touch (new_zone default_config now SUPPORT 100 4) 100 5)
          100 6;
        update_touch
          (update_touch (new_zone default_config now RESISTANCE 101 4) 101 5)
          101 6].
Proof.
  unfold detect_zones, candles_1m. rewrite quiet_candles. cbv zeta.
  cbn [length Nat.ltb Nat.leb Nat.sub seq for_each].
  scan. feed. reflexivity.
Qed.

(** The two zones of that pass satisfy the invariant. *)
Lemma zone_invariant_kept_witness :
  zone_invariant (new_zone default_config 0 SUPPORT 100 4)
  /\ Forall zone_invariant [quiet_support; quiet_resistance].
Proof.
  destruct (zone_invariant_kept default_config ttest_stub 0)
    as (Hnew & _ & Hpass).
  - simpl. lra.
  - split.
    + apply Hnew. lra.
    + apply (Hpass quiet_state).
      * unfold nonneg_prices. rewrite quiet_candles.
        repeat constructor; simpl; lra.
      * apply earlier_pass.
Defined.

(** After three more candles the window has lost the candles of two of the
    three touches, and the later pass returns no zone. *)
Lemma later_pass (now : R) (r1 : list Zone) :
  detect_zones default_config ttest_stub now
    (fold_left receive later_arrivals (set_active_zones r1 quiet_state))
  = Ok [].
Proof.
  unfold detect_zones, candles_1m. rewrite later_candles. cbv zeta.
  cbn [length Nat.ltb Nat.leb Nat.sub seq for_each].
  scan. feed. reflexivity.
Qed.

(** C2, as stated, fails.  A market state of capacity 9 holds nine quiet
    candles; the earlier pass returns a support zone at 100 with three
    touches.  Three candles arrive, the three oldest leave the window.  The
    later pass has a support pivot at exactly 100, the center of that zone,
    and returns no zone at all: the registry started empty again, found one
    touch, and the zone fell below the minimum of three touches. *)
Lemma history_claim_fails :
  ~ (forall (config : Config) (ttest_1samp : list R -> R -> R * R)
            (now1 now2 : R) (market_state : MarketState)
            (arrivals : list (CandleDict * R)),
        history_carried_forward config ttest_1samp now1 now2 market_state
                                arrivals).
Proof.
  intros H.
  destruct (H default_config ttest_stub 0 20 quiet_state later_arrivals
              [quiet_support; quiet_resistance] [] quiet_support 3%nat 100)
    as (z' & Hin & _).
  - apply earlier_pass.
  - apply later_pass.
  - left. reflexivity.
  - unfold pivot_at. rewrite later_candles.
    split; [simpl; lia |].
    exists (flat 7). split; [reflexivity |]. split; [reflexivity |].
    cbn [zone_type quiet_support update_touch new_zone slice Nat.sub Nat.add
         skipn firstn map flat wide low py_min fold_left].
    rcompare. reflexivity.
  - simpl. rabs. lra.
  - destruct Hin.
Qed.

Lemma new_zone_from_window (config : Config) (now : R) (cs : list Candle)
      (c : Candle) (ztype : ZoneType) :
  In c cs ->
  touches_from_window
    now cs (new_zone config now ztype (pivot_of c ztype) (candle_time now c)).
Proof.
  intros Hc. unfold touches_from_window. simpl.
  split.
  - intros p [<- | []]. exists c. split; [exact Hc |].
    destruct ztype; [left | right]; reflexivity.
  - intros t [<- | []]. exists c. split; [exact Hc | reflexivity].
Qed.

Lemma update_touch_from_window (now : R) (cs : list Candle) (c : Candle)
      (ztype : ZoneType) (z : Zone) :
  In c cs -> touches_from_window now cs z ->
  touches_from_window
    now cs (update_touch z (pivot_of c ztype) (candle_time now c)).
Proof.
  intros Hc [Hp Ht]. unfold touches_from_window, update_touch. simpl.
  split.
  - intros p Hin. apply in_app_or in Hin. destruct Hin as [Hin | [<- | []]].
    + apply Hp. exact Hin.
    + exists c. split; [exact Hc |].
      destruct ztype; [left | right]; reflexivity.
  - intros t Hin. apply in_app_or in Hin. destruct Hin as [Hin | [<- | []]].
    + apply Ht. exact Hin.
    + exists c. split; [exact Hc | reflexivity].
Qed.

(** C2, amended.  A detection pass rebuilds the zones from the current
    candle window alone.  Its result does not depend on the zones an
    earlier pass left in the market state; and every touch of every zone
    it returns is a touch of a candle that is in the window now: each touch
    price is the low or high of such a candle, each touch time its time.
    Touches of candles that have left the window are not carried forward. *)
Theorem detect_zones_rebuilds
        (config : Config) (ttest_1samp : list R -> R -> R * R) (now : R)
        (market_state : MarketState) :
  (forall prior : list Zone,
      detect_zones config ttest_1samp now (set_active_zones prior market_state)
      = detect_zones config ttest_1samp now market_state)
  /\ (forall (zones : list Zone) (z : Zone),
         detect_zones config ttest_1samp now market_state = Ok zones ->
         In z zones ->
         touches_from_window now (candles market_state) z).
Proof.
  split; [reflexivity |].
  intros zones z Hrun Hz.
  assert (Hall : Forall (touches_from_window now (candles market_state)) zones).
  { apply (detect_zones_Forall config ttest_1samp now
             (touches_from_window now (candles market_state))
             (candles market_state)) with (market_state := market_state).
    - intros c ztype Hc. apply new_zone_from_window. exact Hc.
    - intros c ztype z0 Hc Hz0. apply update_touch_from_window; assumption.
    - intros z0 s Hz0. exact Hz0.
    - reflexivity.
    - exact Hrun. }
  rewrite Forall_forall in Hall. apply Hall. exact Hz.
Qed.

Lemma detect_zones_rebuilds_witness :
  touches_from_window 0 (candles quiet_state) quiet_support.
Proof.
  destruct (detect_zones_rebuilds default_config ttest_stub 0 quiet_state)
    as [_ H].
  apply (H [quiet_support; quiet_resistance]).
  - apply earlier_pass.
  - left. reflexivity.
Defined.

(** ** Confirmation strengths *)

Lemma confirm_with_orderbook_gate (zone : Zone) (ob : OrderBook) :
  let '(strength, zone') := confirm_with_orderbook zone ob in
  (0.3 < strength -> orderbook_strength zone' = Some strength)
  /\ (strength <= 0.3 -> orderbook_strength zone' = orderbook_strength zone).
Proof.
  unfold confirm_with_orderbook.
  destruct (bids ob) as [b |]; [destruct (asks ob) as [a |] |];
    try (split; intros; [lra | reflexivity]).
  cbv zeta.
  destruct (Rltb 0.3 _) eqn:Hs.
  - apply Rltb_iff in Hs. split; intros; [reflexivity | lra].
  - split; intros H; [| reflexivity].
    apply Rltb_true in H. congruence.
Qed.

Lemma confirm_with_volume_gate (zone : Zone) (recent_candles : list Candle) :
  let '(strength, zone') := confirm_with_volume zone recent_candles in
  (0.3 < strength -> volume_strength zone' = Some strength)
  /\ (strength <= 0.3 -> volume_strength zone' = volume_strength zone).
Proof.
  unfold confirm_with_volume.
  destruct (length recent_candles <? 10)%nat;
    [split; intros; [lra | reflexivity] |].
  cbv zeta.
  destruct (map volume _) as [| v vs];
    [split; intros; [lra | reflexivity] |].
  destruct (Rltb 0.3 _) eqn:Hs.
  - apply Rltb_iff in Hs. split; intros; [reflexivity | lra].
  - split; intros H; [| reflexivity].
    apply Rltb_true in H. congruence.
Qed.



Lemma analyze_timeframe_stores_any_volume
      (zone : Zone) (market_state : MarketState) :
  orderbook_nonempty (orderbook market_state) = false ->
  (10 < length (candles market_state))%nat ->
  volume_strength (analyze_timeframe_confirm zone market_state)
  = Some (fst (confirm_with_volume
                 zone (lastn 100 (candles market_state)))).
Proof.
  intros Hob Hlen. unfold analyze_timeframe_confirm. rewrite Hob.
  apply Nat.ltb_lt in Hlen. rewrite Hlen.
  destruct (confirm_with_volume _ _). reflexivity.
Qed.




(** * Further properties of the modelled code *)

(** ** models.py: decay, recency and touches *)

Lemma exp_nonpos_le_1 (x : R) : x <= 0 -> exp x <= 1.
Proof.
  intros [Hlt | ->].
  - rewrite <- exp_0. left. apply exp_increasing. exact Hlt.
  - rewrite exp_0. lra.
Qed.

Lemma decay_factor_le_1 (now h : R) (s : StatisticalMetrics) :
  0 < h -> created s <= now -> decay_factor now h s <= 1.
Proof.
  intros Hh Hc. unfold decay_factor. apply exp_nonpos_le_1.
  assert (Hln : 0 < ln 2) by (rewrite <- ln_1; apply ln_increasing; lra).
  assert (Hage : 0 <= (now - created s) / 3600) by lra.
  assert (Hinv : 0 < / h) by (apply Rinv_0_lt_compat; exact Hh).
  unfold Rdiv at 1.
  assert (0 <= ln 2 * ((now - created s) / 3600) * / h).
  { apply Rmult_le_pos; [apply Rmult_le_pos |]; lra. }
  lra.
Qed.

(** X1.  The decay factor halves with every half-life that passes, and is
    at most 1 from the creation of the zone on. *)
Theorem decay_factor_half_life (now h : R) (s : StatisticalMetrics) :
  0 < h ->
  decay_factor (now + 3600 * h) h s = decay_factor now h s / 2
  /\ (created s <= now -> 0 < decay_factor now h s <= 1).
Proof.
  intros Hh. split.
  - unfold decay_factor.
    replace (- ln 2 * ((now + 3600 * h - created s) / 3600) / h)
      with (- ln 2 * ((now - created s) / 3600) / h + - ln 2)
      by (field; lra).
    rewrite exp_plus, exp_Ropp, exp_ln by lra. reflexivity.
  - intros Hc. split; [apply decay_factor_pos |].
    apply decay_factor_le_1; assumption.
Qed.

Lemma decay_factor_half_life_witness :
  decay_factor (0 + 3600 * 12) 12 (StatisticalMetrics_default 0)
  = decay_factor 0 12 (StatisticalMetrics_default 0) / 2.
Proof.
  apply (decay_factor_half_life 0 12 (StatisticalMetrics_default 0)). lra.
Defined.

(** X2.  The recency factor is never negative; from the last touch on it
    is at most 1 and falls linearly, 1 - elapsed/86400 during the first 24
    hours, and 0 afterwards. *)
Theorem recency_factor_range (now : R) (s : StatisticalMetrics) :
  0 <= recency_factor now s
  /\ (last_touch s <= now -> recency_factor now s <= 1)
  /\ (last_touch s <= now <= last_touch s + 86400 ->
      recency_factor now s = 1 - (now - last_touch s) / 86400)
  /\ (last_touch s + 86400 <= now -> recency_factor now s = 0).
Proof.
  unfold recency_factor. cbv zeta.
  split; [apply Rmax_l |].
  split; [intros H; apply Rmax_lub; lra |].
  split.
  - intros H. rewrite Rmax_right by lra. field.
  - intros H. apply Rmax_left. lra.
Qed.

Lemma recency_factor_range_witness :
  recency_factor 43200 (StatisticalMetrics_default 0) = 1 - (43200 - 0) / 86400
  /\ recency_factor 90000 (StatisticalMetrics_default 0) = 0.
Proof.
  split.
  - apply (recency_factor_range 43200 (StatisticalMetrics_default 0)).
    simpl. lra.
  - apply (recency_factor_range 90000 (StatisticalMetrics_default 0)).
    simpl. lra.
Defined.

Lemma lastn_length {A} (n : nat) (l : list A) :
  length (lastn n l) = Nat.min n (length l).
Proof. unfold lastn. rewrite length_skipn. lia. Qed.

Lemma lastn_short {A} (n : nat) (l : list A) :
  (length l <= n)%nat -> lastn n l = l.
Proof.
  intros H. unfold lastn.
  replace (length l - n)%nat with 0%nat by lia. reflexivity.
Qed.

Lemma lastn_suffix {A} (n : nat) (l : list A) :
  exists front : list A, l = front ++ lastn n l.
Proof.
  exists (firstn (length l - n) l). unfold lastn.
  symmetry. apply firstn_skipn.
Qed.

Lemma lastn_app_one {A} (n : nat) (l : list A) (x : A) :
  (0 < n)%nat -> lastn n (l ++ [x]) = lastn (n - 1) l ++ [x].
Proof.
  intros Hn. unfold lastn. rewrite length_app. simpl.
  rewrite skipn_app.
  replace (length l + 1 - n)%nat with (length l - (n - 1))%nat by lia.
  replace (length l - (n - 1) - length l)%nat with 0%nat by lia.
  reflexivity.
Qed.

Lemma lastn_lastn_app {A} (n : nat) (l l' : list A) :
  lastn n (lastn n l ++ l') = lastn n (l ++ l').
Proof.
  unfold lastn. rewrite !length_app, length_skipn, !skipn_app, length_skipn.
  rewrite skipn_skipn.
  f_equal; f_equal; lia.
Qed.

Lemma Forall_lastn {A} (P : A -> Prop) (n : nat) (l : list A) :
  Forall P l -> Forall P (lastn n l).
Proof.
  intros H. destruct (lastn_suffix n l) as [front Hl].
  rewrite Hl in H. apply Forall_app in H. apply H.
Qed.

Lemma np_std_nonneg (l : list R) : 0 <= np_std l.
Proof. unfold np_std. apply sqrt_pos. Qed.

Lemma update_touch_z_score_bound (z : Zone) (price time : R) :
  (5 <= length (touch_prices z))%nat ->
  0 <= z_score (stats (update_touch z price time))
  <= 1000 * Rabs (price - np_mean (lastn 20 (touch_prices z ++ [price]))).
Proof.
  intros Hlen. unfold update_touch. cbn [stats].
  rewrite length_app. simpl length.
  destruct (Nat.leb_spec 3 (length (touch_prices z) + 1)); [| lia].
  destruct (Nat.ltb_spec 5 (length (touch_prices z) + 1)); [| lia].
  cbn [z_score set_z_score].
  set (a := price - np_mean _).
  set (m := Rmax (np_std _) 0.001).
  assert (Hm : 0.001 <= m) by apply Rmax_r.
  split; [apply Rabs_pos |].
  unfold Rdiv. rewrite Rabs_mult, (Rabs_pos_eq (/ m)).
  - assert (Hinv : / m <= 1000).
    { replace 1000 with (/ 0.001) by lra.
      apply Rinv_le_contravar; lra. }
    pose proof (Rabs_pos a). nra.
  - left. apply Rinv_0_lt_compat. lra.
Qed.

(** X3.  A touch appends the price and the time, adds one to the count
    and moves [last_touch]; it leaves the type, center, band,
    confirmations, strengths, rejections and creation time as they were.
    The deviation is recomputed only from the third touch price on and the
    z-score only from the sixth; the z-score, divided by the deviation
    floored at 0.001, is then between 0 and a thousand times the distance
    of the price to the mean of the last twenty. *)
Theorem update_touch_bookkeeping (z : Zone) (price time : R) :
  touch_prices (update_touch z price time) = touch_prices z ++ [price]
  /\ touch_times (update_touch z price time) = touch_times z ++ [time]
  /\ touches (update_touch z price time) = (touches z + 1)%Z
  /\ last_touch (stats (update_touch z price time)) = time
  /\ created (stats (update_touch z price time)) = created (stats z)
  /\ (zone_type (update_touch z price time), center (update_touch z price time),
      zone_low (update_touch z price time), zone_high (update_touch z price time))
     = (zone_type z, center z, zone_low z, zone_high z)
  /\ (confirmed_tf (update_touch z price time),
      orderbook_strength (update_touch z price time),
      volume_strength (update_touch z price time),
      successful_rejections (update_touch z price time))
     = (confirmed_tf z, orderbook_strength z, volume_strength z,
        successful_rejections z)
  /\ ((length (touch_prices z) < 2)%nat ->
      touches_std (stats (update_touch z price time)) = touches_std (stats z))
  /\ ((length (touch_prices z) < 5)%nat ->
      z_score (stats (update_touch z price time)) = z_score (stats z))
  /\ ((2 <= length (touch_prices z))%nat ->
      touches_std (stats (update_touch z price time))
      = np_std (lastn 20 (touch_prices z ++ [price])))
  /\ ((5 <= length (touch_prices z))%nat ->
      0 <= z_score (stats (update_touch z price time))
      <= 1000 * Rabs (price - np_mean (lastn 20 (touch_prices z ++ [price])))).
Proof.
  split; [reflexivity |]. split; [reflexivity |]. split; [reflexivity |].
  split.
  { unfold update_touch. cbn [stats].
    destruct (3 <=? _)%nat; [destruct (5 <? _)%nat |]; reflexivity. }
  split.
  { unfold update_touch. cbn [stats].
    destruct (3 <=? _)%nat; [destruct (5 <? _)%nat |]; reflexivity. }
  split; [reflexivity |]. split; [reflexivity |].
  split.
  { intros Hlen. unfold update_touch. cbn [stats].
    rewrite length_app. simpl length.
    destruct (Nat.leb_spec 3 (length (touch_prices z) + 1)); [lia |].
    reflexivity. }
  split.
  { intros Hlen. unfold update_touch. cbn [stats].
    rewrite length_app. simpl length.
    destruct (Nat.ltb_spec 5 (length (touch_prices z) + 1)); [lia |].
    destruct (3 <=? _)%nat; reflexivity. }
  split.
  { intros Hlen. unfold update_touch. cbn [stats].
    rewrite length_app. simpl length.
    destruct (Nat.leb_spec 3 (length (touch_prices z) + 1)); [| lia].
    destruct (5 <? _)%nat; reflexivity. }
  apply update_touch_z_score_bound.
Qed.

Lemma update_touch_bookkeeping_witness :
  touches_std (stats (update_touch (new_zone default_config 0 SUPPORT 100 1)
                                   100.1 2))
  = 0.
Proof.
  destruct (update_touch_bookkeeping (new_zone default_config 0 SUPPORT 100 1)
                                     100.1 2)
    as (_ & _ & _ & _ & _ & _ & _ & Hstd & _).
  rewrite Hstd; [reflexivity | simpl; lia].
Defined.

Lemma Rsum_all_at (p : R) (l : list R) :
  all_at p l -> Rsum l = INR (length l) * p.
Proof.
  unfold all_at. induction 1 as [| x l Hx _ IH].
  - simpl. ring.
  - change (Rsum (x :: l)) with (x + Rsum l).
    change (length (x :: l)) with (S (length l)).
    rewrite IH, S_INR, Hx. ring.
Qed.

Lemma np_mean_all_at (p : R) (l : list R) :
  all_at p l -> l <> [] -> np_mean l = p.
Proof.
  intros Hall Hne. unfold np_mean. rewrite (Rsum_all_at p l Hall).
  assert (INR (length l) <> 0).
  { apply not_0_INR. destruct l; [contradiction | discriminate]. }
  field. assumption.
Qed.

Lemma np_std_all_at (p : R) (l : list R) :
  all_at p l -> l <> [] -> np_std l = 0.
Proof.
  intros Hall Hne. unfold np_std. cbv zeta.
  rewrite (np_mean_all_at p l Hall Hne).
  assert (Hdev : all_at 0 (map (fun x => (x - p) * (x - p)) l)).
  { unfold all_at in *. apply Forall_map.
    eapply Forall_impl; [| exact Hall]. intros x ->. ring. }
  rewrite (np_mean_all_at 0 _ Hdev).
  - apply sqrt_0.
  - destruct l; [contradiction | discriminate].
Qed.

(** X4.  When every touch of a zone, the new one included, is at one
    price, the deviation of the touches is 0 and, from the sixth touch on,
    so is the z-score: the floor of 0.001 under the deviation keeps the
    division defined. *)
Theorem update_touch_equal_prices (z : Zone) (p time : R) :
  all_at p (touch_prices z) ->
  (2 <= length (touch_prices z))%nat ->
  touches_std (stats (update_touch z p time)) = 0
  /\ ((5 <= length (touch_prices z))%nat ->
      z_score (stats (update_touch z p time)) = 0).
Proof.
  intros Hall Hlen.
  assert (Hall' : all_at p (lastn 20 (touch_prices z ++ [p]))).
  { apply Forall_lastn. apply Forall_app. split; [exact Hall |].
    constructor; [reflexivity | constructor]. }
  assert (Hne : lastn 20 (touch_prices z ++ [p]) <> []).
  { intros Hnil. apply (f_equal (@length R)) in Hnil.
    rewrite lastn_length, length_app in Hnil. cbn [length] in Hnil. lia. }
  unfold update_touch. cbn [stats].
  rewrite length_app. simpl length.
  destruct (Nat.leb_spec 3 (length (touch_prices z) + 1)); [| lia].
  split.
  - destruct (5 <? _)%nat; cbn [touches_std set_z_score set_touches_std];
      apply (np_std_all_at p); assumption.
  - intros H5.
    destruct (Nat.ltb_spec 5 (length (touch_prices z) + 1)); [| lia].
    cbn [z_score set_z_score].
    rewrite (np_mean_all_at p _ Hall' Hne).
    replace (p - p) with 0 by ring.
    unfold Rdiv. rewrite Rmult_0_l. apply Rabs_R0.
Qed.

Lemma update_touch_equal_prices_witness :
  touches_std (stats (update_touch quiet_support 100 7)) = 0.
Proof.
  apply (update_touch_equal_prices quiet_support 100 7).
  - unfold all_at. simpl. repeat constructor.
  - simpl. lia.
Defined.

(** ** models.py: the bounded window *)

Lemma deque_append_ends {A} (maxlen : nat) (q : list A) (x : A) :
  (0 < maxlen)%nat ->
  deque_append maxlen q x = lastn (maxlen - 1) q ++ [x].
Proof. intros H. unfold deque_append. apply lastn_app_one. exact H. Qed.

(** Appending to a deque of capacity [maxlen] leaves
    min(maxlen, len + 1) elements, which are the newest ones in their order
    (what is dropped is dropped from the front), and the appended element
    is the last of them unless the capacity is 0. *)
Theorem deque_append_keeps_newest {A} (maxlen : nat) (q : list A) (x : A) :
  length (deque_append maxlen q x) = Nat.min maxlen (length q + 1)
  /\ (exists dropped : list A, q ++ [x] = dropped ++ deque_append maxlen q x)
  /\ ((0 < maxlen)%nat ->
      exists kept : list A,
        deque_append maxlen q x = kept ++ [x]
        /\ exists dropped : list A, q = dropped ++ kept)
  /\ (maxlen = 0%nat -> deque_append maxlen q x = []).
Proof.
  split.
  { unfold deque_append. rewrite lastn_length, length_app. reflexivity. }
  split; [apply lastn_suffix |].
  split.
  - intros Hm. exists (lastn (maxlen - 1) q).
    split; [apply deque_append_ends; exact Hm | apply lastn_suffix].
  - intros ->. unfold deque_append, lastn.
    rewrite Nat.sub_0_r. apply skipn_all.
Qed.

Lemma deque_append_keeps_newest_witness :
  exists kept : list nat,
    deque_append 3 [1; 2; 3]%nat 4%nat = kept ++ [4%nat].
Proof.
  destruct (deque_append_keeps_newest 3 [1; 2; 3]%nat 4%nat)
    as (_ & _ & H & _).
  destruct H as (kept & Hk & _); [lia |].
  exists kept. exact Hk.
Defined.

Lemma receive_max_candles (ms : MarketState) (arrival : CandleDict * R) :
  max_candles (receive ms arrival) = max_candles ms.
Proof. reflexivity. Qed.

Lemma receive_all_candles (arrivals : list (CandleDict * R)) (ms : MarketState) :
  max_candles (fold_left receive arrivals ms) = max_candles ms
  /\ lastn (max_candles ms) (candles (fold_left receive arrivals ms))
     = lastn (max_candles ms) (candles ms ++ map stamp_arrival arrivals).
Proof.
  revert ms. induction arrivals as [| a rest IH]; intros ms.
  - simpl. rewrite app_nil_r. split; reflexivity.
  - simpl fold_left. destruct (IH (receive ms a)) as [Hmax Hwin].
    rewrite receive_max_candles in Hmax, Hwin.
    split; [exact Hmax |].
    rewrite Hwin. unfold receive at 1, appended, deque_append.
    cbn [candles set_candles map].
    rewrite lastn_lastn_app, <- app_assoc. reflexivity.
Qed.

(** X5.  After any run of accepted candles the window holds exactly the
    newest [max_candles] candles of the old window followed by the
    arrivals, in order of arrival, each with its timestamp; its length
    never exceeds the capacity when it did not before. *)
Theorem window_after_arrivals
        (ms : MarketState) (arrivals : list (CandleDict * R)) :
  (length (candles ms) <= max_candles ms)%nat ->
  candles (fold_left receive arrivals ms)
  = lastn (max_candles ms) (candles ms ++ map stamp_arrival arrivals)
  /\ (length (candles (fold_left receive arrivals ms)) <= max_candles ms)%nat.
Proof.
  intros Hlen.
  assert (Hbound : forall (l : list (CandleDict * R)) (m : MarketState),
             (length (candles m) <= max_candles m)%nat ->
             (length (candles (fold_left receive l m)) <= max_candles m)%nat).
  { induction l as [| a rest IH]; intros m Hm; [exact Hm |].
    simpl fold_left. rewrite <- (receive_max_candles m a).
    apply IH. unfold receive, appended, deque_append. cbn [candles set_candles
      max_candles]. rewrite lastn_length. lia. }
  destruct (receive_all_candles arrivals ms) as [_ Hwin].
  rewrite lastn_short in Hwin by (apply Hbound; exact Hlen).
  split; [exact Hwin | apply Hbound; exact Hlen].
Qed.

Lemma window_after_arrivals_witness :
  candles (fold_left receive later_arrivals quiet_state)
  = lastn 9 (candles quiet_state ++ map stamp_arrival later_arrivals).
Proof.
  apply (window_after_arrivals quiet_state later_arrivals).
  rewrite quiet_candles. simpl. lia.
Defined.

(** ** detectors.py: the registry *)

Lemma ZoneType_eqb_eq (a b : ZoneType) : ZoneType_eqb a b = true <-> a = b.
Proof. destruct a, b; simpl; split; intros; congruence. Qed.

Lemma add_skips_unmatched (config : Config) (now : R) (zone : Zone)
      (rest : list Zone) (ztype : ZoneType) (price tolerance timestamp : R) :
  price <> 0 ->
  ~ matches zone ztype price tolerance ->
  _add_or_update_zone config now (zone :: rest) ztype price tolerance timestamp
  = (rest' <- _add_or_update_zone config now rest ztype price tolerance
                                  timestamp ;;
     Ok (zone :: rest')).
Proof.
  intros Hp Hno.
  destruct (ZoneType_eqb (zone_type zone) ztype) eqn:Ht.
  - apply add_far_head; [exact Hp |].
    apply ZoneType_eqb_eq in Ht.
    destruct (Rle_dec (Rabs (center zone - price) / price) tolerance) as [H | H].
    + exfalso. apply Hno. split; assumption.
    + lra.
  - apply add_other_type. exact Ht.
Qed.

(** X6.  The registry updates the first zone, in the order of the
    registry, that is of the type and within the tolerance of the price,
    whatever zones follow it; when no zone matches, the new zone is put at
    the end. *)
Theorem add_or_update_first_match
        (config : Config) (now : R) (before after : list Zone) (zone : Zone)
        (ztype : ZoneType) (price tolerance timestamp : R) :
  price <> 0 ->
  Forall (fun z => ~ matches z ztype price tolerance) before ->
  (matches zone ztype price tolerance ->
   _add_or_update_zone config now (before ++ zone :: after) ztype price
                       tolerance timestamp
   = Ok (before ++ update_touch zone price timestamp :: after))
  /\ _add_or_update_zone config now before ztype price tolerance timestamp
     = Ok (before ++ [new_zone config now ztype price timestamp]).
Proof.
  intros Hp Hbefore.
  induction Hbefore as [| z0 rest Hz0 _ [IHm IHn]].
  - split; [| reflexivity].
    intros [Ht Hle]. simpl app.
    apply add_matching_head; assumption.
  - split.
    + intros Hm. simpl app.
      rewrite add_skips_unmatched by assumption.
      rewrite (IHm Hm). reflexivity.
    + simpl app. rewrite add_skips_unmatched by assumption.
      rewrite IHn. reflexivity.
Qed.

Lemma support_touch_run :
  _add_or_update_zone default_config 0 [quiet_resistance; quiet_support]
                      SUPPORT 100.1 0.003 7
  = Ok [quiet_resistance; update_touch quiet_support 100.1 7].
Proof. feed. reflexivity. Qed.

Lemma add_or_update_first_match_witness :
  _add_or_update_zone default_config 0 [quiet_resistance; quiet_support]
                      SUPPORT 100.1 0.003 7
  = Ok [quiet_resistance; update_touch quiet_support 100.1 7].
Proof.
  apply (add_or_update_first_match default_config 0 [quiet_resistance] []
                                   quiet_support SUPPORT 100.1 0.003 7).
  - lra.
  - constructor; [| constructor]. intros [Ht _]. discriminate Ht.
  - split; [reflexivity |]. simpl. rabs. lra.
Defined.

(** X7.  A pivot price of 0 makes the registry raise ZeroDivisionError as
    soon as it holds a zone of the type, the distance being divided by the
    price; with no zone of the type the division is never reached and a
    zone is created at 0. *)
Theorem add_or_update_zero_price
        (config : Config) (now : R) (zones : list Zone) (ztype : ZoneType)
        (tolerance timestamp : R) :
  (Exists (fun z => zone_type z = ztype) zones ->
   _add_or_update_zone config now zones ztype 0 tolerance timestamp
   = Raise ZeroDivisionError)
  /\ (Forall (fun z => zone_type z <> ztype) zones ->
      _add_or_update_zone config now zones ztype 0 tolerance timestamp
      = Ok (zones ++ [new_zone config now ztype 0 timestamp])).
Proof.
  induction zones as [| z rest [IHe IHf]].
  - split; [intros H; inversion H | reflexivity].
  - split.
    + intros Hex. simpl.
      destruct (ZoneType_eqb (zone_type z) ztype) eqn:Ht.
      * unfold float_div. rewrite Reqb_true by reflexivity. reflexivity.
      * apply Exists_cons in Hex. destruct Hex as [Hz | Hrest].
        -- apply ZoneType_eqb_eq in Hz. congruence.
        -- simpl. rewrite (IHe Hrest). reflexivity.
    + intros Hall. apply Forall_cons_iff in Hall. destruct Hall as [Hz Hrest].
      rewrite add_other_type.
      * rewrite (IHf Hrest). reflexivity.
      * destruct (ZoneType_eqb (zone_type z) ztype) eqn:Ht;
          [apply ZoneType_eqb_eq in Ht; contradiction | reflexivity].
Qed.

Lemma add_or_update_zero_price_witness :
  _add_or_update_zone default_config 0 [quiet_resistance; quiet_support]
                      SUPPORT 0 0.003 7
  = Raise ZeroDivisionError.
Proof.
  apply (add_or_update_zero_price default_config 0
           [quiet_resistance; quiet_support] SUPPORT 0.003 7).
  right. left. reflexivity.
Defined.

(** X8.  A call of the registry that returns has counted the pivot exactly
    once, the touches of all zones together growing by one; the zones that
    were there keep their order, type, center and band, and at most one
    zone is added, at the end. *)
Theorem add_or_update_accounting
        (config : Config) (now : R) (zones zones' : list Zone)
        (ztype : ZoneType) (price tolerance timestamp : R) :
  _add_or_update_zone config now zones ztype price tolerance timestamp
  = Ok zones' ->
  total_touches zones' = (total_touches zones + 1)%Z
  /\ (map place zones' = map place zones
      \/ map place zones'
         = map place zones
               ++ [place (new_zone config now ztype price timestamp)]).
Proof.
  revert zones'. induction zones as [| z rest IH]; intros zones' Hrun.
  - simpl in Hrun. injection Hrun as <-. split; [reflexivity |].
    right. reflexivity.
  - simpl in Hrun.
    destruct (if ZoneType_eqb (zone_type z) ztype
              then q <- float_div (Rabs (center z - price)) price ;;
                   Ok (Rleb q tolerance)
              else Ok false) as [[|] | e]; simpl in Hrun; [| | discriminate].
    + injection Hrun as <-. split; [simpl; lia | left; reflexivity].
    + destruct (_add_or_update_zone config now rest ztype price tolerance
                                    timestamp) as [rest' |] eqn:Hr;
        simpl in Hrun; [| discriminate].
      injection Hrun as <-.
      destruct (IH rest' eq_refl) as [Htot Hplace].
      split; [simpl; lia |].
      destruct Hplace as [Hp | Hp]; [left | right]; simpl; rewrite Hp;
        reflexivity.
Qed.

Lemma add_or_update_accounting_witness :
  total_touches [quiet_resistance; update_touch quiet_support 100.1 7]
  = (total_touches [quiet_resistance; quiet_support] + 1)%Z.
Proof.
  apply (add_or_update_accounting default_config 0
           [quiet_resistance; quiet_support]
           [quiet_resistance; update_touch quiet_support 100.1 7]
           SUPPORT 100.1 0.003 7).
  apply support_touch_run.
Defined.

(** ** detectors.py: the detection pass *)

Lemma validate_zone_touches (ttest_1samp : list R -> R -> R * R)
      (popmean : R) (z : Zone) :
  touches (validate_zone ttest_1samp popmean z) = touches z
  /\ touch_prices (validate_zone ttest_1samp popmean z) = touch_prices z.
Proof.
  unfold validate_zone.
  destruct (3 <=? length (touch_prices z))%nat; split; reflexivity.
Qed.

Lemma statistical_validation_sound
      (ttest_1samp : list R -> R -> R * R) (zones : list Zone)
      (candles : list Candle) (z : Zone) :
  In z (_statistical_validation ttest_1samp zones candles) ->
  (exists z0 : Zone,
      In z0 zones /\ touches z = touches z0
      /\ touch_prices z = touch_prices z0)
  /\ ((20 <= length candles)%nat ->
      p_value (stats z) < 0.1
      /\ ((3 <= length (touch_prices z))%nat ->
          confidence (stats z) = 1 - p_value (stats z))).
Proof.
  unfold _statistical_validation. intros Hin.
  destruct zones as [| z1 rest]; [destruct Hin |].
  destruct (Nat.ltb_spec (length candles) 20) as [Hshort | Hlong].
  - split; [| intros; lia].
    exists z. repeat split; try reflexivity. exact Hin.
  - apply filter_In in Hin. destruct Hin as [Hin Hp].
    apply in_map_iff in Hin. destruct Hin as (z0 & <- & Hz0).
    destruct (validate_zone_touches
                ttest_1samp (np_mean (map close (lastn 100 candles))) z0)
      as [Ht Hpr].
    split; [exists z0; repeat split; assumption |].
    intros _. split; [apply Rltb_iff; exact Hp |].
    rewrite Hpr. intros H3. unfold validate_zone.
    apply Nat.leb_le in H3. rewrite H3. reflexivity.
Qed.

(** X9.  Every zone a detection pass returns has at least the configured
    minimum of touches; over a window of twenty candles or more it also
    has a p-value below 0.1 and, with three touch prices or more, a
    confidence of one minus that p-value. *)
Theorem detect_zones_filters
        (config : Config) (ttest_1samp : list R -> R -> R * R) (now : R)
        (market_state : MarketState) (zones : list Zone) (z : Zone) :
  detect_zones config ttest_1samp now market_state = Ok zones ->
  In z zones ->
  (ZONE_MIN_TOUCHES config <= touches z)%Z
  /\ ((20 <= length (candles market_state))%nat ->
      p_value (stats z) < 0.1
      /\ ((3 <= length (touch_prices z))%nat ->
          confidence (stats z) = 1 - p_value (stats z))).
Proof.
  intros Hrun Hz. unfold detect_zones, candles_1m in Hrun. cbv zeta in Hrun.
  destruct (length (candles market_state) <? 7)%nat.
  - injection Hrun as <-. destruct Hz.
  - destruct (for_each _ _ _) as [zones1 |]; simpl in Hrun; [| discriminate].
    injection Hrun as <-.
    apply statistical_validation_sound in Hz.
    destruct Hz as [(z0 & Hz0 & Ht & _) Hp].
    split; [| exact Hp].
    apply filter_In in Hz0. destruct Hz0 as [_ Hmin].
    rewrite Ht. apply Z.leb_le. exact Hmin.
Qed.

Lemma detect_zones_filters_witness :
  (ZONE_MIN_TOUCHES default_config <= touches quiet_support)%Z.
Proof.
  apply (detect_zones_filters default_config ttest_stub 0 quiet_state
                              [quiet_support; quiet_resistance] quiet_support).
  - apply earlier_pass.
  - left. reflexivity.
Defined.

(** X10.  Over a window in which no candle has a low or a high of 0 a
    detection pass returns: no index is out of range, no window is empty
    and no distance is divided by 0. *)
Theorem detect_zones_no_exception
        (config : Config) (ttest_1samp : list R -> R -> R * R) (now : R)
        (market_state : MarketState) :
  Forall (fun c => low c <> 0 /\ high c <> 0) (candles market_state) ->
  exists zones : list Zone,
    detect_zones config ttest_1samp now market_state = Ok zones.
Proof. apply detect_zones_returns. Qed.

Lemma detect_zones_no_exception_witness :
  exists zones : list Zone,
    detect_zones default_config ttest_stub 0 quiet_state = Ok zones.
Proof.
  apply (detect_zones_no_exception default_config ttest_stub 0 quiet_state).
  rewrite quiet_candles. repeat constructor; simpl; lra.
Defined.

Lemma nth_error_repeat_some {A} (c : A) (n i : nat) :
  (i < n)%nat -> nth_error (repeat c n) i = Some c.
Proof.
  revert i. induction n as [| n IH]; intros i Hi; [lia |].
  destruct i as [| i]; [reflexivity |]. simpl. apply IH. lia.
Qed.

Lemma skipn_repeat {A} (c : A) (n k : nat) :
  skipn k (repeat c n) = repeat c (n - k).
Proof.
  revert k. induction n as [| n IH]; intros k.
  - destruct k; reflexivity.
  - destruct k as [| k]; [reflexivity |]. simpl. apply IH.
Qed.

Lemma firstn_repeat_le {A} (c : A) (n k : nat) :
  (k <= n)%nat -> firstn k (repeat c n) = repeat c k.
Proof.
  revert n. induction k as [| k IH]; intros n Hk; [reflexivity |].
  destruct n as [| n]; [lia |]. simpl. f_equal. apply IH. lia.
Qed.

Lemma slice_repeat {A} (c : A) (n i : nat) :
  (3 <= i)%nat -> (i + 4 <= n)%nat ->
  slice (i - 3) (i + 4) (repeat c n) = repeat c 7.
Proof.
  intros H3 Hn. unfold slice. rewrite skipn_repeat.
  replace (i + 4 - (i - 3))%nat with 7%nat by lia.
  apply firstn_repeat_le. lia.
Qed.

Lemma touched_again_place (k : nat) (z : Zone) (price time : R) :
  place (touched_again k z price time) = place z
  /\ touches (touched_again k z price time) = (touches z + Z.of_nat k)%Z.
Proof.
  induction k as [| k [IHp IHt]].
  - split; [reflexivity | simpl; lia].
  - split.
    + rewrite <- IHp. reflexivity.
    + change (touched_again (S k) z price time)
        with (update_touch (touched_again k z price time) price time).
      change (touches (update_touch ?x price time)) with (touches x + 1)%Z.
      rewrite IHt. lia.
Qed.

Section FlatWindow.

Variable config : Config.
Variable now : R.
Variable c : Candle.
Variable n : nat.

Hypothesis low_nonzero : low c <> 0.
Hypothesis high_nonzero : high c <> 0.
Hypothesis tolerance_nonneg : 0 <= ZONE_TOLERANCE_PCT config.

Lemma scan_flat (zones : list Zone) (i : nat) :
  (3 <= i)%nat -> (i + 4 <= n)%nat ->
  scan_index config now (repeat c n) zones i
  = (zones1 <- _add_or_update_zone config now zones SUPPORT (low c)
                 (ZONE_TOLERANCE_PCT config) (candle_time now c) ;;
     _add_or_update_zone config now zones1 RESISTANCE (high c)
       (ZONE_TOLERANCE_PCT config) (candle_time now c)).
Proof.
  intros H3 Hn. unfold scan_index.
  rewrite nth_error_repeat_some by lia.
  rewrite slice_repeat by assumption.
  cbn [repeat map py_min py_max fold_left bind].
  rcompare. reflexivity.
Qed.

Lemma scan_flat_first (i : nat) :
  (3 <= i)%nat -> (i + 4 <= n)%nat ->
  scan_index config now (repeat c n) [] i = Ok [(flat_support config now c); (flat_resistance config now c)].
Proof.
  intros H3 Hn. rewrite scan_flat by assumption. reflexivity.
Qed.

Lemma scan_flat_next (k i : nat) :
  (3 <= i)%nat -> (i + 4 <= n)%nat ->
  scan_index config now (repeat c n)
    [touched_again k (flat_support config now c) (low c) (candle_time now c);
     touched_again k (flat_resistance config now c) (high c) (candle_time now c)] i
  = Ok [touched_again (S k) (flat_support config now c) (low c) (candle_time now c);
        touched_again (S k) (flat_resistance config now c) (high c) (candle_time now c)].
Proof.
  intros H3 Hn. rewrite scan_flat by assumption.
  destruct (touched_again_place k (flat_support config now c) (low c) (candle_time now c))
    as [Hs _].
  destruct (touched_again_place k (flat_resistance config now c) (high c) (candle_time now c))
    as [Hr _].
  injection Hs as Hs1 Hs2 _ _. injection Hr as Hr1 Hr2 _ _.
  rewrite add_matching_head.
  - cbn [bind].
    rewrite add_other_type
      by (cbn [zone_type update_touch]; rewrite Hs1; reflexivity).
    rewrite add_matching_head.
    + reflexivity.
    + rewrite Hr1. reflexivity.
    + exact high_nonzero.
    + rewrite Hr2. simpl center.
      replace (high c - high c) with 0 by ring.
      rewrite Rabs_R0. unfold Rdiv. rewrite Rmult_0_l.
      exact tolerance_nonneg.
  - rewrite Hs1. reflexivity.
  - exact low_nonzero.
  - rewrite Hs2. simpl center.
    replace (low c - low c) with 0 by ring.
    rewrite Rabs_R0. unfold Rdiv. rewrite Rmult_0_l.
    exact tolerance_nonneg.
Qed.

Lemma for_each_flat (count k i : nat) :
  (3 <= i)%nat -> (i + count + 3 <= n)%nat ->
  for_each (scan_index config now (repeat c n)) (seq i count)
    [touched_again k (flat_support config now c) (low c) (candle_time now c);
     touched_again k (flat_resistance config now c) (high c) (candle_time now c)]
  = Ok [touched_again (count + k) (flat_support config now c) (low c) (candle_time now c);
        touched_again (count + k) (flat_resistance config now c) (high c) (candle_time now c)].
Proof.
  revert k i. induction count as [| count IH]; intros k i H3 Hn.
  - reflexivity.
  - cbn [seq for_each]. rewrite scan_flat_next by lia. cbn [bind].
    rewrite IH by lia. rewrite Nat.add_succ_r. reflexivity.
Qed.

(** In a window of equal candles every candle that has three neighbours on
    each side is a pivot of both types. *)
Lemma detect_zones_flat_window
      (ttest_1samp : list R -> R -> R * R) (market_state : MarketState) :
  candles market_state = repeat c n ->
  (7 <= n < 20)%nat ->
  (ZONE_MIN_TOUCHES config <= Z.of_nat (n - 6))%Z ->
  detect_zones config ttest_1samp now market_state
  = Ok [touched_again (n - 7) (flat_support config now c) (low c) (candle_time now c);
        touched_again (n - 7) (flat_resistance config now c) (high c) (candle_time now c)].
Proof.
  intros Hcs Hn Hmin. unfold detect_zones, candles_1m. rewrite Hcs. cbv zeta.
  rewrite repeat_length.
  destruct (Nat.ltb_spec n 7); [lia |].
  replace (n - 6)%nat with (S (n - 7)) by lia.
  cbn [seq for_each]. rewrite scan_flat_first by lia. cbn [bind].
  change [(flat_support config now c); (flat_resistance config now c)]
    with [touched_again 0 (flat_support config now c) (low c) (candle_time now c);
          touched_again 0 (flat_resistance config now c) (high c) (candle_time now c)].
  rewrite (for_each_flat (n - 7) 0 4) by lia. cbn [bind].
  rewrite Nat.add_0_r.
  destruct (touched_again_place (n - 7) (flat_support config now c) (low c) (candle_time now c))
    as [_ Hst].
  destruct (touched_again_place (n - 7) (flat_resistance config now c) (high c)
                                (candle_time now c)) as [_ Hrt].
  cbn [filter]. unfold min_touches. rewrite Hst, Hrt.
  change (touches (flat_support config now c)) with 1%Z. change (touches (flat_resistance config now c)) with 1%Z.
  destruct (Z.leb_spec (ZONE_MIN_TOUCHES config) (1 + Z.of_nat (n - 7)));
    [| lia].
  unfold _statistical_validation. rewrite repeat_length.
  destruct (Nat.ltb_spec n 20); [reflexivity | lia].
Qed.

End FlatWindow.

(** X11.  The pivot test is not strict: over a window of n equal candles,
    7 <= n < 20, every candle with three neighbours on each side counts as
    a support pivot and as a resistance pivot, and the pass returns one
    support zone at the low and one resistance zone at the high, each with
    n - 6 touches. *)
Theorem flat_window_pivots
        (config : Config) (ttest_1samp : list R -> R -> R * R) (now : R)
        (c : Candle) (n : nat) :
  low c <> 0 -> high c <> 0 ->
  0 <= ZONE_TOLERANCE_PCT config ->
  (7 <= n < 20)%nat ->
  (ZONE_MIN_TOUCHES config <= Z.of_nat (n - 6))%Z ->
  exists support resistance : Zone,
    detect_zones config ttest_1samp now (state_of_window (repeat c n))
    = Ok [support; resistance]
    /\ place support
       = place (new_zone config now SUPPORT (low c) (candle_time now c))
    /\ place resistance
       = place (new_zone config now RESISTANCE (high c) (candle_time now c))
    /\ touches support = Z.of_nat (n - 6)
    /\ touches resistance = Z.of_nat (n - 6).
Proof.
  intros Hl Hh Htol Hn Hmin.
  eexists. eexists. split.
  - apply (detect_zones_flat_window config now c n Hl Hh Htol ttest_1samp);
      [reflexivity | exact Hn | exact Hmin].
  - unfold flat_support, flat_resistance.
    destruct (touched_again_place
                (n - 7) (new_zone config now SUPPORT (low c) (candle_time now c))
                (low c) (candle_time now c)) as [Hsp Hst].
    destruct (touched_again_place
                (n - 7)
                (new_zone config now RESISTANCE (high c) (candle_time now c))
                (high c) (candle_time now c)) as [Hrp Hrt].
    split; [exact Hsp |]. split; [exact Hrp |].
    rewrite Hst, Hrt. simpl touches. split; lia.
Qed.

Lemma flat_window_pivots_witness :
  exists support resistance : Zone,
    detect_zones default_config ttest_stub 0 (state_of_window (repeat (flat 1) 9))
    = Ok [support; resistance]
    /\ touches support = 3%Z.
Proof.
  destruct (flat_window_pivots default_config ttest_stub 0 (flat 1) 9)
    as (s & r & Hrun & _ & _ & Hs & _).
  - simpl. lra.
  - simpl. lra.
  - simpl. lra.
  - lia.
  - simpl. lia.
  - exists s, r. split; [exact Hrun | exact Hs].
Defined.

(** ** confirmations.py *)

Lemma Rsum_nonneg (l : list R) : Forall (fun x => 0 <= x) l -> 0 <= Rsum l.
Proof.
  induction 1 as [| x l Hx _ IH]; simpl; lra.
Qed.

Lemma Forall_firstn {A} (P : A -> Prop) (n : nat) (l : list A) :
  Forall P l -> Forall P (firstn n l).
Proof.
  intros H. rewrite <- (firstn_skipn n l) in H.
  apply Forall_app in H. apply H.
Qed.

Lemma Forall_filter_gen {A} (P : A -> Prop) (f : A -> bool) (l : list A) :
  Forall P l -> Forall P (filter f l).
Proof.
  intros H. apply Forall_forall. intros x Hx. apply filter_In in Hx.
  rewrite Forall_forall in H. apply H, Hx.
Qed.

Lemma orderbook_strength_of_range (zone : Zone) (bids asks : list (R * R)) :
  orderbook_strength_of zone bids asks <= 1
  /\ (Forall (fun pv => 0 <= snd pv) (bids ++ asks) ->
      0 <= orderbook_strength_of zone bids asks).
Proof.
  unfold orderbook_strength_of. cbv zeta.
  set (total := Rsum _). set (avg := if (10 <=? _)%nat then _ else _).
  split.
  - pose proof (Rmin_r (total / Rmax avg 1) 3). lra.
  - intros Hq.
    assert (Htot : 0 <= total).
    { apply Rsum_nonneg, Forall_map, Forall_filter_gen. exact Hq. }
    assert (Hden : 1 <= Rmax avg 1) by apply Rmax_r.
    assert (0 <= total / Rmax avg 1).
    { apply Rmult_le_pos; [exact Htot |].
      left. apply Rinv_0_lt_compat. lra. }
    assert (0 <= Rmin (total / Rmax avg 1) 3) by (apply Rmin_nonneg; lra).
    lra.
Qed.

(** X12.  The order-book strength is at most 1, and at least 0 when no
    level has a negative quantity; it is 0 when the book lacks a side.  The
    confirmation writes it to the zone when it exceeds 0.3 and otherwise
    returns the zone as it was; no other field of the zone changes. *)
Theorem confirm_with_orderbook_effect (zone : Zone) (ob : OrderBook) :
  fst (confirm_with_orderbook zone ob) <= 1
  /\ (quantities_nonneg (bids ob) -> quantities_nonneg (asks ob) ->
      0 <= fst (confirm_with_orderbook zone ob))
  /\ (bids ob = None \/ asks ob = None ->
      confirm_with_orderbook zone ob = (0, zone))
  /\ (0.3 < fst (confirm_with_orderbook zone ob) ->
      snd (confirm_with_orderbook zone ob)
      = set_orderbook_strength (Some (fst (confirm_with_orderbook zone ob)))
                               zone)
  /\ (fst (confirm_with_orderbook zone ob) <= 0.3 ->
      snd (confirm_with_orderbook zone ob) = zone).
Proof.
  unfold confirm_with_orderbook.
  destruct (bids ob) as [b |], (asks ob) as [a |]; cbv zeta; simpl fst;
    simpl snd;
    try (repeat split; intros; try reflexivity; try lra; fail).
  destruct (orderbook_strength_of_range zone (firstn 10 b) (firstn 10 a))
    as [Hle Hge].
  destruct (Rltb 0.3 _) eqn:Hs; simpl fst; simpl snd.
  - apply Rltb_iff in Hs.
    split; [exact Hle |]. split.
    { intros Hb Ha. apply Hge. apply Forall_app.
      split; apply Forall_firstn; assumption. }
    split; [intros [H | H]; discriminate |].
    split; [reflexivity | intros; lra].
  - split; [exact Hle |]. split.
    { intros Hb Ha. apply Hge. apply Forall_app.
      split; apply Forall_firstn; assumption. }
    split; [intros [H | H]; discriminate |].
    split; [| reflexivity].
    intros H. apply Rltb_true in H. congruence.
Qed.

Lemma deep_book_strength :
  fst (confirm_with_orderbook zone_100 deep_book) = 1.
Proof.
  unfold confirm_with_orderbook, orderbook_strength_of, in_zone, Rsum.
  simpl. rcompare. simpl.
  assert (H : Rmin ((4 + (2 + 0)) / 1) 3 / 3 = 1).
  { rewrite Rmin_right by lra. lra. }
  rewrite H. rcompare. reflexivity.
Qed.

Lemma confirm_with_orderbook_effect_witness :
  snd (confirm_with_orderbook zone_100 deep_book)
  = set_orderbook_strength
      (Some (fst (confirm_with_orderbook zone_100 deep_book))) zone_100
  /\ 0 <= fst (confirm_with_orderbook zone_100 thin_book).
Proof.
  split.
  - apply (confirm_with_orderbook_effect zone_100 deep_book).
    rewrite deep_book_strength. lra.
  - apply (confirm_with_orderbook_effect zone_100 thin_book);
      simpl; repeat constructor; simpl; lra.
Defined.

Lemma np_mean_nonneg (l : list R) :
  Forall (fun x => 0 <= x) l -> 0 <= np_mean l.
Proof.
  intros H. unfold np_mean. pose proof (Rsum_nonneg l H) as Hs.
  destruct l as [| x l'].
  - simpl. unfold Rdiv. rewrite Rmult_0_l. lra.
  - apply Rmult_le_pos; [exact Hs |].
    left. apply Rinv_0_lt_compat. apply lt_0_INR. simpl. lia.
Qed.

(** X13.  The volume strength is at most 1, and at least 0 when no candle
    has a negative volume; it is 0 with fewer than ten candles, or when
    none of the last fifty touches the zone.  The confirmation writes it
    to the zone when it exceeds 0.3 and otherwise returns the zone as it
    was. *)
Theorem confirm_with_volume_effect (zone : Zone) (recent_candles : list Candle) :
  fst (confirm_with_volume zone recent_candles) <= 1
  /\ (Forall (fun c => 0 <= volume c) recent_candles ->
      0 <= fst (confirm_with_volume zone recent_candles))
  /\ ((length recent_candles < 10)%nat
      \/ filter (touches_zone zone) (lastn 50 recent_candles) = [] ->
      confirm_with_volume zone recent_candles = (0, zone))
  /\ (0.3 < fst (confirm_with_volume zone recent_candles) ->
      snd (confirm_with_volume zone recent_candles)
      = set_volume_strength
          (Some (fst (confirm_with_volume zone recent_candles))) zone)
  /\ (fst (confirm_with_volume zone recent_candles) <= 0.3 ->
      snd (confirm_with_volume zone recent_candles) = zone).
Proof.
  unfold confirm_with_volume.
  destruct (Nat.ltb_spec (length recent_candles) 10) as [Hshort | Hlong].
  { simpl. repeat split; intros; try reflexivity; lra. }
  cbv zeta.
  destruct (filter (touches_zone zone) (lastn 50 recent_candles))
    as [| tc tcs] eqn:Hf.
  { simpl. repeat split; intros; try reflexivity; lra. }
  cbn [map].
  set (touch_volumes := volume tc :: map volume tcs).
  assert (Hle : volume_strength_of zone recent_candles touch_volumes <= 1).
  { unfold volume_strength_of. cbv zeta.
    match goal with |- Rmin ?r 2 / 2 <= 1 => pose proof (Rmin_r r 2) end.
    lra. }
  assert (Hge : Forall (fun c => 0 <= volume c) recent_candles ->
                0 <= volume_strength_of zone recent_candles touch_volumes).
  { intros Hv. unfold volume_strength_of. cbv zeta.
    assert (Htv : 0 <= np_mean touch_volumes).
    { apply np_mean_nonneg.
      change touch_volumes with (map volume (tc :: tcs)). rewrite <- Hf.
      apply Forall_map, Forall_filter_gen, Forall_lastn. exact Hv. }
    set (avg := np_mean (map volume (lastn 20 recent_candles))).
    assert (Hden : 1 <= Rmax avg 1) by apply Rmax_r.
    assert (0 <= np_mean touch_volumes / Rmax avg 1).
    { apply Rmult_le_pos; [exact Htv |].
      left. apply Rinv_0_lt_compat. lra. }
    assert (0 <= Rmin (np_mean touch_volumes / Rmax avg 1) 2)
      by (apply Rmin_nonneg; lra).
    lra. }
  destruct (Rltb 0.3 _) eqn:Hs; simpl fst; simpl snd.
  - apply Rltb_iff in Hs.
    split; [exact Hle |]. split; [exact Hge |].
    split; [intros [H | H]; [lia | discriminate] |].
    split; [reflexivity | intros; lra].
  - split; [exact Hle |]. split; [exact Hge |].
    split; [intros [H | H]; [lia | discriminate] |].
    split; [| reflexivity].
    intros H. apply Rltb_true in H. congruence.
Qed.

Lemma confirm_with_volume_effect_witness :
  confirm_with_volume zone_100 [flat 1; flat 2] = (0, zone_100)
  /\ 0 <= fst (confirm_with_volume zone_100 touching_window).
Proof.
  split.
  - apply (confirm_with_volume_effect zone_100 [flat 1; flat 2]).
    left. simpl. lia.
  - apply (confirm_with_volume_effect zone_100 touching_window).
    unfold touching_window. repeat constructor; simpl; lra.
Defined.

Lemma sum_values_two (a b : string) (x y : bool) :
  (0 <= sum_values [(a, x); (b, y)] <= 2)%Z.
Proof. unfold sum_values. destruct x, y; simpl; lia. Qed.

(** X14.  The cross-timeframe confirmation replaces the zone's
    [confirmed_tf] by verdicts for exactly the timeframes 5m and 1h and
    changes nothing else; a timeframe is confirmed exactly when its window
    holds ten candles or more and two or more of its last twenty touch the
    band.  Two timeframes being checked and their count divided by three,
    what they add to the quality score is at most 10. *)
Theorem confirm_multiple_timeframes_effect
        (zone : Zone) (candles_5m candles_1h : list Candle) :
  let result := confirm_multiple_timeframes zone candles_5m candles_1h in
  map fst (fst result) = ["5m"%string; "1h"%string]
  /\ snd result = set_confirmed_tf (fst result) zone
  /\ (forall (tf : string) (tf_candles : list Candle),
         (tf, tf_candles) = ("5m"%string, candles_5m)
         \/ (tf, tf_candles) = ("1h"%string, candles_1h) ->
         In (tf, true) (fst result)
         <-> (10 <= length tf_candles)%nat
             /\ (2 <= length (filter (touches_zone zone)
                                     (lastn 20 tf_candles)))%nat)
  /\ 0 <= IZR (sum_values (confirmed_tf (snd result))) / 3 * 15 <= 10.
Proof.
  cbv zeta. unfold confirm_multiple_timeframes. cbn [fst snd map].
  split; [reflexivity |]. split; [reflexivity |].
  split.
  - assert (Hv : forall cs,
               timeframe_confirms zone cs = true
               <-> (10 <= length cs)%nat
                   /\ (2 <= length (filter (touches_zone zone)
                                           (lastn 20 cs)))%nat).
    { intros cs. unfold timeframe_confirms.
      destruct (Nat.ltb_spec (length cs) 10).
      - split; [discriminate | lia].
      - rewrite Nat.leb_le. split; [intros; split; [lia | assumption] |].
        intros [_ H']. exact H'. }
    intros tf cs [Heq | Heq]; injection Heq as -> ->; rewrite <- Hv.
    + split.
      * intros [H | [H | []]]; [congruence | discriminate].
      * intros ->. left. reflexivity.
    + split.
      * intros [H | [H | []]]; [discriminate | congruence].
      * intros ->. right. left. reflexivity.
  - cbn [confirmed_tf set_confirmed_tf].
    pose proof (sum_values_two "5m" "1h" (timeframe_confirms zone candles_5m)
                               (timeframe_confirms zone candles_1h))
      as [H0 H2].
    apply IZR_le in H0, H2. lra.
Qed.

Lemma touching_window_touches :
  filter (touches_zone zone_100) (lastn 20 touching_window) = [flat 1; flat 2].
Proof.
  unfold touching_window, lastn, touches_zone, in_zone.
  cbn [length Nat.sub skipn filter flat wide low high zone_100 zone_low
       zone_high].
  rcompare. reflexivity.
Qed.

Lemma confirm_multiple_timeframes_effect_witness :
  In ("5m"%string, true)
     (fst (confirm_multiple_timeframes zone_100 touching_window [])).
Proof.
  destruct (confirm_multiple_timeframes_effect zone_100 touching_window [])
    as (_ & _ & H & _).
  apply (H "5m"%string touching_window).
  - left. reflexivity.
  - rewrite touching_window_touches. simpl. lia.
Defined.

(** ** signals.py *)

(** X15.  For a risk base that is not negative, a confidence between 0 and
    1 and a quality score that is not negative, the cap of three times the
    risk base never cuts: the position size is the plain product, and lies
    between 0 and the cap. *)
Theorem position_size_cap_never_cuts
        (now : R) (s : TradingSignal) (risk_base : R) :
  0 <= risk_base ->
  0 <= signal_confidence s <= 1 ->
  0 <= quality_score now (zone s) ->
  calculate_position_size now s risk_base
  = risk_base * (signal_confidence s * 2)
    * (quality_score now (zone s) / 100)
    * (if any_values (confirmed_tf (zone s)) then 1.5 else 1)
  /\ 0 <= calculate_position_size now s risk_base <= 3 * risk_base.
Proof.
  intros Hr [Hc0 Hc1] Hq0.
  pose proof (quality_score_le_100 now (zone s)) as Hq1.
  unfold calculate_position_size. cbv zeta.
  set (a := signal_confidence s * 2).
  set (b := quality_score now (zone s) / 100).
  set (t := if any_values (confirmed_tf (zone s)) then 1.5 else 1).
  assert (Ha : 0 <= a <= 2) by (unfold a; lra).
  assert (Hb : 0 <= b <= 1) by (unfold b; lra).
  assert (Ht : 1 <= t <= 1.5)
    by (unfold t; destruct (any_values _); lra).
  assert (Hab : 0 <= a * b <= 2) by nra.
  assert (Habt : 0 <= a * b * t <= 3) by nra.
  assert (Hprod : 0 <= risk_base * a * b * t <= risk_base * 3).
  { replace (risk_base * a * b * t) with (risk_base * (a * b * t)) by ring.
    nra. }
  rewrite Rmin_left by lra. split; [reflexivity | lra].
Qed.

Lemma position_size_cap_never_cuts_witness :
  0 <= calculate_position_size 0 signal_80 0.02 <= 3 * 0.02.
Proof.
  apply (position_size_cap_never_cuts 0 signal_80 0.02).
  - lra.
  - simpl. lra.
  - simpl zone. rewrite quality_score_zone_80. lra.
Defined.

Lemma check_bounce_inversion
      (min_confidence class_time now : R) (z : Zone) (price : R)
      (market_state : MarketState) (s : TradingSignal) :
  _check_bounce min_confidence class_time now z price market_state = Some s ->
  exists (last_candle prev_candle : Candle) (earlier : list Candle),
    rev (lastn 3 (candles_1m market_state))
    = last_candle :: prev_candle :: earlier
    /\ touched z prev_candle = true
    /\ bounced z prev_candle last_candle = true
    /\ min_confidence <= _calculate_bounce_confidence now z market_state
    /\ s = mkTradingSignal z "rejection"
                           (_calculate_bounce_confidence now z market_state)
                           class_time.
Proof.
  unfold _check_bounce. cbv zeta. intros H.
  destruct (rev (lastn 3 (candles_1m market_state)))
    as [| lc [| pc earlier]]; try discriminate.
  destruct (touched z pc && bounced z pc lc) eqn:Htb; [| discriminate].
  destruct (Rleb min_confidence _) eqn:Hc; [| discriminate].
  injection H as <-. apply andb_true_iff in Htb. destruct Htb as [Ht Hb].
  apply Rleb_iff in Hc.
  exists lc, pc, earlier. repeat split; assumption.
Qed.





Lemma any_values_false_sum (d : list (string * bool)) :
  any_values d = false -> sum_values d = 0%Z.
Proof.
  unfold any_values, sum_values. induction d as [| [k v] rest IH]; simpl.
  - reflexivity.
  - destruct v; simpl; [discriminate | exact IH].
Qed.

Lemma unconfirmed_quality (now : R) (z : Zone) :
  unconfirmed now z -> quality_score now z <= 30.
Proof.
  intros (Hconf & Htf & Hob & Hvol & Hrej & Hcr & Hlt).
  rewrite quality_score_parts.
  assert (Htp : touches_points z <= 20).
  { unfold touches_points. apply IZR_le. lia. }
  assert (Hcp : confidence_points z = 0).
  { unfold confidence_points.
    rewrite !Rltb_false by lra. reflexivity. }
  assert (Htfp : timeframe_points z = 0).
  { unfold timeframe_points. rewrite (any_values_false_sum _ Htf).
    unfold Rdiv. ring. }
  assert (Htime : time_points now z <= 10).
  { unfold time_points.
    assert (Hr : recency_factor now (stats z) <= 1).
    { unfold recency_factor. cbv zeta. apply Rmax_lub; lra. }
    pose proof (decay_factor_le_1 now 12 (stats z)).
    lra. }
  rewrite Hob, Hvol, (win_points_no_rejections z Hrej), Hcp, Htfp.
  unfold strength_points. simpl truthy. cbv iota.
  apply Rle_trans with (touches_points z + 0 + 0 + 0 + 0 + time_points now z + 0);
    [apply Rmin_r | lra].
Qed.

(** X18.  A zone that nothing has confirmed (confidence at most 0.9, no
    timeframe, no strength, no rejection) has a quality of at most 30,
    whatever its touches; so a market state whose active zones are all
    such yields no signal, the gate being at 40. *)
Theorem unconfirmed_zones_never_signal
        (min_confidence class_time now : R) (market_state : MarketState) :
  Forall (unconfirmed now) (active_zones market_state) ->
  Forall (fun z => quality_score now z <= 30) (active_zones market_state)
  /\ generate_signals min_confidence class_time now market_state = [].
Proof.
  intros Hall.
  assert (Hq : Forall (fun z => quality_score now z <= 30)
                      (active_zones market_state)).
  { eapply Forall_impl; [| exact Hall]. intros z. apply unconfirmed_quality. }
  split; [exact Hq |].
  unfold generate_signals. cbv zeta.
  induction Hq as [| z rest Hz _ IH]; [reflexivity |].
  cbn [flat_map]. rewrite Rltb_true by lra.
  apply Forall_cons_iff in Hall. rewrite IH by apply Hall. reflexivity.
Qed.

Lemma unconfirmed_zones_never_signal_witness :
  generate_signals 0 0 10 (set_active_zones [zone_100] bounce_state) = [].
Proof.
  apply (unconfirmed_zones_never_signal
           0 0 10 (set_active_zones [zone_100] bounce_state)).
  constructor; [| constructor].
  unfold unconfirmed. simpl. repeat split; try reflexivity; lra.
Defined.

(** ** multi_symbol_manager.py: the producer *)

Lemma producer_body_cases (self : Manager.State) (m : Manager.Message) :
  (is_message m = false /\ Manager.producer_body self m = Ok self)
  \/ (is_message m = true
      /\ Manager.full (Manager.message_queue self) = true
      /\ Manager.producer_body self m = Ok (Manager.drop_message self))
  \/ (is_message m = true
      /\ Manager.full (Manager.message_queue self) = false
      /\ Manager.producer_body self m
         = Ok (Manager.mkState
                 (Manager.mkQueue
                    (Manager.maxsize (Manager.message_queue self))
                    (Manager.items (Manager.message_queue self) ++ [m]))
                 (Manager.stats self) (Manager.log self))).
Proof.
  unfold Manager.producer_body, is_message, Manager.put_nowait.
  destruct (String.eqb (Manager.type m) "message"); [| left; split; reflexivity].
  right.
  destruct (Manager.full (Manager.message_queue self));
    [left | right]; repeat split; reflexivity.
Qed.

(** X19.  Over any run of the stream every message is either put at the
    tail of the queue or counted as dropped: the queue grows by some of
    the messages, in their order of arrival, and their number plus the
    growth of [messages_dropped] is the number of messages; subscription
    notices change nothing, and neither the capacity nor
    [messages_processed] is touched. *)
Theorem producer_conservation
        (self : Manager.State) (messages : list Manager.Message) :
  exists accepted : list Manager.Message,
    Manager.items (Manager.message_queue (Manager._redis_producer self messages))
    = Manager.items (Manager.message_queue self) ++ accepted
    /\ subseq accepted (filter is_message messages)
    /\ (Z.of_nat (length accepted)
        + (Manager.messages_dropped
             (Manager.stats (Manager._redis_producer self messages))
           - Manager.messages_dropped (Manager.stats self))
        = Z.of_nat (length (filter is_message messages)))%Z
    /\ Manager.maxsize
         (Manager.message_queue (Manager._redis_producer self messages))
       = Manager.maxsize (Manager.message_queue self)
    /\ Manager.messages_processed
         (Manager.stats (Manager._redis_producer self messages))
       = Manager.messages_processed (Manager.stats self).
Proof.
  revert self. induction messages as [| m rest IH]; intros self.
  - exists []. simpl. rewrite app_nil_r.
    repeat split; try reflexivity; try lia. constructor.
  - cbn [Manager._redis_producer filter].
    destruct (producer_body_cases self m)
      as [[Hm Hb] | [(Hm & Hf & Hb) | (Hm & Hf & Hb)]]; rewrite Hb, Hm.
    + apply IH.
    + destruct (IH (Manager.drop_message self))
        as (acc & Hitems & Hsub & Hcount & Hmax & Hproc).
      exists acc. cbn [Manager.drop_message Manager.message_queue
                         Manager.stats Manager.messages_dropped
                         Manager.messages_processed] in *.
      split; [exact Hitems |]. split; [constructor; exact Hsub |].
      split; [cbn [length]; lia |]. split; assumption.
    + destruct (IH (Manager.mkState
                      (Manager.mkQueue
                         (Manager.maxsize (Manager.message_queue self))
                         (Manager.items (Manager.message_queue self) ++ [m]))
                      (Manager.stats self) (Manager.log self)))
        as (acc & Hitems & Hsub & Hcount & Hmax & Hproc).
      exists (m :: acc).
      cbn [Manager.message_queue Manager.items Manager.maxsize Manager.stats]
        in *.
      split; [rewrite Hitems, <- app_assoc; reflexivity |].
      split; [constructor; exact Hsub |].
      split; [cbn [length]; lia |]. split; assumption.
Qed.

(** X20.  A queue within its capacity stays within it whatever the stream
    delivers: the producer never enqueues into a full queue. *)
Theorem producer_keeps_capacity
        (self : Manager.State) (messages : list Manager.Message) :
  (0 < Manager.maxsize (Manager.message_queue self))%Z ->
  (Manager.qsize (Manager.message_queue self)
   <= Manager.maxsize (Manager.message_queue self))%Z ->
  (Manager.qsize
     (Manager.message_queue (Manager._redis_producer self messages))
   <= Manager.maxsize (Manager.message_queue self))%Z.
Proof.
  revert self. induction messages as [| m rest IH]; intros self Hpos Hle.
  - exact Hle.
  - cbn [Manager._redis_producer].
    destruct (producer_body_cases self m)
      as [[Hm Hb] | [(Hm & Hf & Hb) | (Hm & Hf & Hb)]]; rewrite Hb.
    + apply IH; assumption.
    + apply (IH (Manager.drop_message self)); assumption.
    + match goal with
      | |- (Manager.qsize (Manager.message_queue
                             (Manager._redis_producer ?s rest)) <= _)%Z =>
          specialize (IH s)
      end.
      cbn [Manager.message_queue Manager.maxsize] in IH.
      apply IH; [exact Hpos |].
      unfold Manager.full in Hf.
      destruct (Z.leb_spec (Manager.maxsize (Manager.message_queue self)) 0);
        [lia |].
      apply Z.leb_gt in Hf.
      unfold Manager.qsize in *. cbn [Manager.items]. rewrite length_app.
      cbn [length]. lia.
Qed.

Lemma producer_keeps_capacity_witness :
  (Manager.qsize
     (Manager.message_queue
        (Manager._redis_producer
           small_state [kline_message; kline_message; kline_message]))
   <= 2)%Z.
Proof.
  apply (producer_keeps_capacity
           small_state [kline_message; kline_message; kline_message]).
  - simpl. lia.
  - unfold Manager.qsize. simpl. lia.
Defined.

Lemma drop_message_log (self : Manager.State) :
  exists new : list LogRecord,
    Manager.log (Manager.drop_message self) = Manager.log self ++ new
    /\ Forall (fun r => exists n : Z,
                   r = QueueFullDropped n /\ (n mod 100 = 0)%Z
                   /\ n = (Manager.messages_dropped (Manager.stats self) + 1)%Z)
              new
    /\ Z.of_nat (length new)
       = ((Manager.messages_dropped (Manager.stats self) + 1) / 100
          - Manager.messages_dropped (Manager.stats self) / 100)%Z.
Proof.
  unfold Manager.drop_message. cbn [Manager.log].
  set (d := Manager.messages_dropped (Manager.stats self)).
  destruct (Z.eqb_spec ((d + 1) mod 100) 0) as [Hz | Hnz].
  - exists [QueueFullDropped (d + 1)].
    split; [reflexivity |]. split.
    + constructor; [| constructor]. exists (d + 1)%Z. repeat split. exact Hz.
    + cbn [length]. revert Hz. Z.div_mod_to_equations. lia.
  - exists []. rewrite app_nil_r.
    split; [reflexivity |]. split; [constructor |].
    cbn [length]. revert Hnz. Z.div_mod_to_equations. lia.
Qed.

(** X21.  The producer writes to the log only when it drops, and then one
    warning for every hundredth drop: what a run adds to the log are
    warnings carrying multiples of 100 between the old and the new count
    of drops, as many as there are such multiples. *)
Theorem producer_logs_every_hundredth_drop
        (self : Manager.State) (messages : list Manager.Message) :
  exists new : list LogRecord,
    Manager.log (Manager._redis_producer self messages)
    = Manager.log self ++ new
    /\ Forall
         (fun r =>
            level r = WARNING
            /\ exists n : Z,
                r = QueueFullDropped n /\ (n mod 100 = 0)%Z
                /\ (Manager.messages_dropped (Manager.stats self) < n
                    <= Manager.messages_dropped
                         (Manager.stats
                            (Manager._redis_producer self messages)))%Z)
         new
    /\ Z.of_nat (length new)
       = (Manager.messages_dropped
            (Manager.stats (Manager._redis_producer self messages)) / 100
          - Manager.messages_dropped (Manager.stats self) / 100)%Z
    /\ (Manager.messages_dropped (Manager.stats self)
        <= Manager.messages_dropped
             (Manager.stats (Manager._redis_producer self messages)))%Z.
Proof.
  revert self. induction messages as [| m rest IH]; intros self.
  - exists []. simpl. rewrite app_nil_r.
    repeat split; try lia. constructor.
  - cbn [Manager._redis_producer].
    destruct (producer_body_cases self m)
      as [[Hm Hb] | [(Hm & Hf & Hb) | (Hm & Hf & Hb)]]; rewrite Hb.
    + apply IH.
    + destruct (IH (Manager.drop_message self))
        as (new & Hlog & Hall & Hlen & Hmono).
      destruct (drop_message_log self) as (new0 & Hlog0 & Hall0 & Hlen0).
      assert (Hd : Manager.messages_dropped
                     (Manager.stats (Manager.drop_message self))
                   = (Manager.messages_dropped (Manager.stats self) + 1)%Z)
        by reflexivity.
      rewrite Hd in *.
      exists (new0 ++ new).
      split; [rewrite Hlog, Hlog0, app_assoc; reflexivity |].
      split.
      * apply Forall_app. split.
        -- eapply Forall_impl; [| exact Hall0].
           intros r (n & -> & Hmod & ->).
           split; [reflexivity |]. exists (Manager.messages_dropped
                                            (Manager.stats self) + 1)%Z.
           repeat split; try assumption; lia.
        -- eapply Forall_impl; [| exact Hall].
           intros r (Hlev & n & -> & Hmod & Hn).
           split; [exact Hlev |]. exists n. repeat split; try assumption; lia.
      * split; [rewrite length_app, Nat2Z.inj_add; lia | lia].
    + match goal with
      | |- exists new, Manager.log (Manager._redis_producer ?s rest) = _ /\ _ =>
          destruct (IH s) as (new & Hlog & Hall & Hlen & Hmono)
      end.
      exists new. cbn [Manager.log Manager.stats] in *.
      repeat split; assumption.
Qed.

(** ** multi_symbol_manager.py: topics *)

Lemma split_on_nonempty (sep : Ascii.ascii) (s : string) : split_on sep s <> [].
Proof.
  destruct s as [| ch rest]; simpl; [discriminate |].
  destruct (Ascii.eqb ch sep); [discriminate |].
  destruct (split_on sep rest); discriminate.
Qed.

Lemma split_dot_free (s : string) :
  dot_free s = true -> split_on "."%char s = [s].
Proof.
  induction s as [| ch rest IH]; simpl; [reflexivity |].
  intros H. apply andb_true_iff in H. destruct H as [Hch Hrest].
  apply negb_true_iff in Hch. rewrite Hch, (IH Hrest). reflexivity.
Qed.

Lemma split_at_dot (a b : string) :
  dot_free a = true ->
  split_on "."%char (a ++ String "."%char b)%string
  = a :: split_on "."%char b.
Proof.
  induction a as [| ch rest IH]; simpl.
  - reflexivity.
  - intros H. apply andb_true_iff in H. destruct H as [Hch Hrest].
    apply negb_true_iff in Hch. rewrite Hch, (IH Hrest). reflexivity.
Qed.

Lemma existsb_eqb_In (s : string) (l : list string) :
  In s l -> existsb (String.eqb s) l = true.
Proof.
  intros H. apply existsb_exists. exists s.
  split; [exact H | apply String.eqb_refl].
Qed.

(** X22.  Topics are cut at the dots and need three parts to be routed.
    For a tracked symbol and a timeframe without dots, the channels
    kline.tf.symbol and orderbook.50.symbol reach the candle and
    order-book branches; the channel publicTrade.symbol has two parts only
    and reaches no branch, so that trades are never processed.  All three
    are channels the producer subscribes to, the analyzers being those of
    the configured symbols. *)
Theorem topic_routing
        (symbol_analyzers : list string) (symbol tf : string) :
  dot_free symbol = true -> dot_free tf = true ->
  In symbol symbol_analyzers ->
  route_topic symbol_analyzers ("kline." ++ tf ++ "." ++ symbol)%string
  = ToCandle tf symbol
  /\ route_topic symbol_analyzers ("orderbook.50." ++ symbol)%string
     = ToOrderbook symbol
  /\ route_topic symbol_analyzers ("publicTrade." ++ symbol)%string
     = Unrouted
  /\ (forall topic : string,
         (length (split_on "."%char topic) < 3)%nat ->
         route_topic symbol_analyzers topic = Unrouted)
  /\ (forall timeframes : list string,
         In tf timeframes ->
         In ("kline." ++ tf ++ "." ++ symbol)%string
            (channels symbol_analyzers timeframes)
         /\ In ("orderbook.50." ++ symbol)%string
               (channels symbol_analyzers timeframes)
         /\ In ("publicTrade." ++ symbol)%string
               (channels symbol_analyzers timeframes)).
Proof.
  intros Hs Htf Hin.
  pose proof (existsb_eqb_In symbol symbol_analyzers Hin) as Hex.
  split; [| split; [| split; [| split]]];
    [| | | | intros timeframes Htfs; unfold channels;
             repeat split; apply in_flat_map; exists symbol;
             (split; [exact Hin |]); apply in_or_app;
             [left; apply in_map_iff; exists tf; split;
                [reflexivity | exact Htfs]
             | right; left; reflexivity
             | right; right; left; reflexivity]].
  - unfold route_topic.
    change ("kline." ++ tf ++ "." ++ symbol)%string
      with ("kline" ++ String "."%char (tf ++ String "."%char symbol))%string.
    rewrite split_at_dot by reflexivity.
    rewrite split_at_dot by exact Htf.
    rewrite split_dot_free by exact Hs.
    cbn [length Nat.leb nth last]. rewrite Hex. reflexivity.
  - unfold route_topic.
    change ("orderbook.50." ++ symbol)%string
      with ("orderbook" ++ String "."%char ("50" ++ String "."%char symbol))%string.
    rewrite !split_at_dot by reflexivity.
    rewrite split_dot_free by exact Hs.
    cbn [length Nat.leb nth last]. rewrite Hex. reflexivity.
  - unfold route_topic.
    change ("publicTrade." ++ symbol)%string
      with ("publicTrade" ++ String "."%char symbol)%string.
    rewrite split_at_dot by reflexivity.
    rewrite split_dot_free by exact Hs.
    reflexivity.
  - intros topic Hlen. unfold route_topic. cbv zeta.
    destruct (Nat.leb_spec 3 (length (split_on "."%char topic)));
      [lia | reflexivity].
Qed.

Lemma topic_routing_witness :
  route_topic ["BTCUSDT"%string] "kline.1.BTCUSDT" = ToCandle "1" "BTCUSDT"
  /\ route_topic ["BTCUSDT"%string] "publicTrade.BTCUSDT" = Unrouted.
Proof.
  destruct (topic_routing ["BTCUSDT"%string] "BTCUSDT" "1")
    as (Hk & _ & Ht & _ & _).
  - reflexivity.
  - reflexivity.
  - left. reflexivity.
  - split; [exact Hk | exact Ht].
Defined.

(** ** save_old_files/analyzer.py: one analysis pass *)

Lemma confirm_with_orderbook_cases (z : Zone) (ob : OrderBook) :
  snd (confirm_with_orderbook z ob) = z
  \/ exists s : R,
      0.3 < s <= 1
      /\ snd (confirm_with_orderbook z ob)
         = set_orderbook_strength (Some s) z.
Proof.
  unfold confirm_with_orderbook.
  destruct (bids ob) as [b |]; [| left; reflexivity].
  destruct (asks ob) as [a |]; [| left; reflexivity].
  cbv zeta.
  destruct (Rltb 0.3 _) eqn:Hs; [| left; reflexivity].
  right. apply Rltb_iff in Hs.
  exists (orderbook_strength_of z (firstn 10 b) (firstn 10 a)).
  split; [| reflexivity].
  split; [exact Hs | apply orderbook_strength_of_range].
Qed.

Lemma volume_strength_of_le_1 (z : Zone) (cs : list Candle) (vs : list R) :
  volume_strength_of z cs vs <= 1.
Proof.
  unfold volume_strength_of. cbv zeta.
  match goal with |- Rmin ?r 2 / 2 <= 1 => pose proof (Rmin_r r 2) end.
  lra.
Qed.

Lemma confirm_with_volume_cases (z : Zone) (cs : list Candle) :
  snd (confirm_with_volume z cs) = z
  \/ exists s : R,
      0.3 < s <= 1
      /\ snd (confirm_with_volume z cs) = set_volume_strength (Some s) z.
Proof.
  unfold confirm_with_volume.
  destruct (length cs <? 10)%nat; [left; reflexivity |].
  cbv zeta.
  destruct (map volume (filter (touches_zone z) (lastn 50 cs)))
    as [| v vs]; [left; reflexivity |].
  destruct (Rltb 0.3 _) eqn:Hs; [| left; reflexivity].
  right. apply Rltb_iff in Hs.
  exists (volume_strength_of z cs (v :: vs)).
  split; [| reflexivity].
  split; [exact Hs | apply volume_strength_of_le_1].
Qed.

Lemma run_analysis_zone_fresh (ms : MarketState) (c5 c1h : list Candle)
      (z : Zone) :
  fresh z ->
  let z' := run_analysis_zone ms c5 c1h z in
  touches z' = touches z /\ place z' = place z
  /\ successful_rejections z' = 0%Z
  /\ gated (orderbook_strength z') /\ gated (volume_strength z')
  /\ map fst (confirmed_tf z') = ["5m"%string; "1h"%string].
Proof.
  intros (Ht & Hob & Hvol & Hrej). cbv zeta.
  unfold run_analysis_zone, confirm_multiple_timeframes. cbn [snd].
  unfold run_analysis_confirm. cbv zeta.
  set (z1 := if orderbook_nonempty (orderbook ms)
             then snd (confirm_with_orderbook z (orderbook ms)) else z).
  assert (H1 : touches z1 = touches z /\ place z1 = place z
               /\ successful_rejections z1 = 0%Z
               /\ gated (orderbook_strength z1) /\ volume_strength z1 = None).
  { unfold z1. destruct (orderbook_nonempty (orderbook ms)).
    - destruct (confirm_with_orderbook_cases z (orderbook ms))
        as [-> | (s & Hs & ->)].
      + rewrite Hob. repeat split; assumption.
      + cbn. repeat split; try assumption; apply Hs.
    - rewrite Hob. repeat split; assumption. }
  destruct H1 as (Ht1 & Hp1 & Hr1 & Hg1 & Hv1).
  set (z2 := match candles_1m ms with
             | [] => z1
             | _ :: _ => snd (confirm_with_volume z1 (lastn 100 (candles_1m ms)))
             end).
  assert (H2 : touches z2 = touches z /\ place z2 = place z
               /\ successful_rejections z2 = 0%Z
               /\ gated (orderbook_strength z2) /\ gated (volume_strength z2)).
  { unfold z2. destruct (candles_1m ms) as [| c0 cs0].
    - rewrite Hv1. repeat split; assumption.
    - destruct (confirm_with_volume_cases z1 (lastn 100 (c0 :: cs0)))
        as [-> | (s & Hs & ->)].
      + rewrite Hv1. repeat split; assumption.
      + cbn. repeat split; try assumption; apply Hs. }
  destruct H2 as (Ht2 & Hp2 & Hr2 & Hgo & Hgv).
  cbn. repeat split; assumption.
Qed.

Lemma detect_zones_fresh (config : Config)
      (ttest_1samp : list R -> R -> R * R) (now : R) (ms : MarketState)
      (zones : list Zone) :
  detect_zones config ttest_1samp now ms = Ok zones -> Forall fresh zones.
Proof.
  intros Hrun.
  apply (detect_zones_Forall config ttest_1samp now fresh (candles ms))
    with (market_state := ms).
  - intros c ztype _. unfold fresh. simpl. repeat split. lia.
  - intros c ztype z _ (Ht & Hob & Hvol & Hrej). unfold fresh.
    cbn [update_touch touches orderbook_strength volume_strength
         successful_rejections].
    repeat split; try assumption. lia.
  - intros z s Hz. exact Hz.
  - reflexivity.
  - exact Hrun.
Qed.

Lemma gated_nonneg (o : option R) : gated o -> strength_nonneg o.
Proof. destruct o as [s |]; simpl; [lra | trivial]. Qed.

(** X23.  An analysis pass of the single-symbol analyzer that returns
    leaves the candle window alone and replaces the active zones by zones
    that each have one touch or more, strengths that are unset or lie in
    (0.3, 1], verdicts for exactly the timeframes 5m and 1h, a quality
    that is not negative and a bounce confidence between 0.5 and 1; every
    signal it hands on is a rejection on one of these zones, of quality 40
    or more and of confidence between the configured minimum and 1. *)
Theorem run_analysis_zones
        (config : Config) (ttest_1samp : list R -> R -> R * R)
        (min_confidence class_time now : R) (market_state : MarketState)
        (candles_5m candles_1h : list Candle)
        (market_state' : MarketState) (signals : list TradingSignal) :
  _run_analysis config ttest_1samp min_confidence class_time now market_state
                candles_5m candles_1h
  = Ok (market_state', signals) ->
  candles market_state' = candles market_state
  /\ Forall
       (fun z =>
          (1 <= touches z)%Z
          /\ gated (orderbook_strength z) /\ gated (volume_strength z)
          /\ map fst (confirmed_tf z) = ["5m"%string; "1h"%string]
          /\ 0 <= quality_score now z
          /\ 0.5 <= _calculate_bounce_confidence now z market_state' <= 1)
       (active_zones market_state')
  /\ Forall
       (fun s =>
          In (zone s) (active_zones market_state')
          /\ 40 <= quality_score now (zone s)
          /\ signal_type s = "rejection"%string
          /\ min_confidence <= signal_confidence s <= 1)
       signals.
Proof.
  unfold _run_analysis. intros Hrun.
  destruct (detect_zones config ttest_1samp now market_state)
    as [zones |] eqn:Hdet; simpl in Hrun; [| discriminate].
  injection Hrun as <- <-.
  split; [reflexivity |].
  split.
  - cbn [active_zones set_active_zones].
    pose proof (detect_zones_fresh _ _ _ _ _ Hdet) as Hfresh.
    apply Forall_map. eapply Forall_impl; [| exact Hfresh].
    intros z Hz.
    destruct (run_analysis_zone_fresh market_state candles_5m candles_1h z Hz)
      as (Ht & _ & Hr & Hgo & Hgv & Htf).
    destruct Hz as (Ht1 & _).
    assert (Hnn : nonneg_zone
                    (run_analysis_zone market_state candles_5m candles_1h z)).
    { unfold nonneg_zone. rewrite Ht, Hr.
      repeat split; try lia; apply gated_nonneg; assumption. }
    pose proof (quality_score_nonneg now _ Hnn) as Hq.
    split; [rewrite Ht; exact Ht1 |].
    split; [exact Hgo |]. split; [exact Hgv |]. split; [exact Htf |].
    split; [exact Hq |].
    apply bounce_confidence_bounds_aux;
      [apply gated_nonneg; exact Hgo | apply gated_nonneg; exact Hgv
       | exact Hq].
  - apply Forall_forall. intros s Hs.
    unfold generate_signals in Hs. cbv zeta in Hs.
    apply in_flat_map in Hs. destruct Hs as (z & Hz & Hs).
    destruct (Rltb (quality_score now z) 40) eqn:Hq; [destruct Hs |].
    match type of Hs with
    | In s (match ?b with _ => _ end) => destruct b as [bs |] eqn:Hb
    end; [| destruct Hs].
    destruct Hs as [<- | []].
    apply check_bounce_inversion in Hb.
    destruct Hb as (lc & pc & earlier & _ & _ & _ & Hmin & ->).
    cbn [zone signal_type signal_confidence].
    split; [exact Hz |].
    split.
    { destruct (Rle_dec 40 (quality_score now z)) as [H | H]; [exact H |].
      rewrite Rltb_true in Hq by lra. discriminate. }
    split; [reflexivity |].
    split; [exact Hmin |].
    unfold _calculate_bounce_confidence. cbv zeta. apply Rmin_r.
Qed.

Lemma quiet_run_analysis :
  exists (ms' : MarketState) (signals : list TradingSignal),
    _run_analysis default_config ttest_stub 0.7 0 0 quiet_state [] []
    = Ok (ms', signals).
Proof.
  unfold _run_analysis. rewrite earlier_pass. cbn [bind].
  eexists. eexists. reflexivity.
Qed.

Lemma run_analysis_zones_witness :
  exists ms' : MarketState,
    candles ms' = candles quiet_state
    /\ Forall (fun z => (1 <= touches z)%Z) (active_zones ms').
Proof.
  destruct quiet_run_analysis as (ms' & signals & Hrun).
  destruct (run_analysis_zones default_config ttest_stub 0.7 0 0 quiet_state
                               [] [] ms' signals Hrun) as (Hc & Hz & _).
  exists ms'. split; [exact Hc |].
  eapply Forall_impl; [| exact Hz]. intros z Hzz. apply Hzz.
Defined.

(** ** save_old_files/analyzer.py: trades *)

Lemma fold_deque_append {A B} (f : B -> A) (maxlen : nat) (xs : list B)
      (q : list A) :
  lastn maxlen
        (fold_left (fun q x => deque_append maxlen q (f x)) xs q)
  = lastn maxlen (q ++ map f xs)
  /\ ((length q <= maxlen)%nat ->
      (length (fold_left (fun q x => deque_append maxlen q (f x)) xs q)
       <= maxlen)%nat).
Proof.
  revert q. induction xs as [| x rest IH]; intros q.
  - simpl. rewrite app_nil_r. split; [reflexivity | trivial].
  - cbn [fold_left map]. destruct (IH (deque_append maxlen q (f x)))
      as [Hwin Hlen].
    split.
    + rewrite Hwin. unfold deque_append.
      rewrite lastn_lastn_app, <- app_assoc. reflexivity.
    + intros _. apply Hlen. unfold deque_append. rewrite lastn_length. lia.
Qed.

(** X24.  Processing a payload of trades leaves in [recent_trades] the
    newest 1000 of the old trades followed by the new ones, in their
    order, each new one stamped with its clock reading and with the side
    unknown when the payload gave none; nothing else of the market state
    changes. *)
Theorem process_trades_window
        (market_state : MarketState) (trades_data : list (TradeDict * R)) :
  (length (recent_trades market_state) <= 1000)%nat ->
  recent_trades (_process_trades market_state trades_data)
  = lastn 1000 (recent_trades market_state ++ map trade_of trades_data)
  /\ (length (recent_trades (_process_trades market_state trades_data))
      <= 1000)%nat
  /\ (candles (_process_trades market_state trades_data),
      orderbook (_process_trades market_state trades_data),
      active_zones (_process_trades market_state trades_data))
     = (candles market_state, orderbook market_state,
        active_zones market_state).
Proof.
  intros Hlen. unfold _process_trades. cbn [recent_trades set_recent_trades].
  destruct (fold_deque_append trade_of 1000 trades_data
                              (recent_trades market_state)) as [Hwin Hbound].
  specialize (Hbound Hlen).
  split; [| split; [exact Hbound | reflexivity]].
  rewrite <- Hwin. symmetry. apply lastn_short. exact Hbound.
Qed.

Lemma process_trades_window_witness :
  recent_trades
    (_process_trades (MarketState_init 500)
                     [(mkTradeDict 100 1 None, 5);
                      (mkTradeDict 101 2 (Some "Buy"%string), 6)])
  = lastn 1000 ([] ++ map trade_of
                          [(mkTradeDict 100 1 None, 5);
                           (mkTradeDict 101 2 (Some "Buy"%string), 6)]).
Proof.
  apply (process_trades_window (MarketState_init 500)).
  simpl. lia.
Defined.
